(** * weather_distance_app: the two tool functions over Python's data model

    A shallow embedding of [get_weather], [calculate_distance] and
    [haversine_distance] from [weather_distance_app.py].

    - Python [float] is IEEE binary64: Rocq's primitive [float], whose
      operations are specified by [FloatAxioms] against [SpecFloat].
    - [str] is a [string]; a character is read as a code point below 256.
    - Exceptions are an error monad over [exn], the [Exception] subclasses
      the code can meet; [try]/[except] is [try_except].
    - The functions of the platform's C library that Python's [math.sin],
      [math.cos], [math.asin] and [**] go through are not fixed by IEEE 754:
      they are an interface, [PyMath], and what a theorem needs of them is a
      stated law.
    - The network is an input: what [requests.get] returns or raises.
    - Logging is left out: the log lines are not part of what is returned. *)

From Stdlib Require Import ZArith Lia Bool String Ascii List Floats.
From stdpp Require Import base option gmap strings pretty.
Import ListNotations.

#[local] Set Warnings "-inexact-float,-register-all".
#[local] Open Scope string_scope.

(** ** Exceptions and results *)

(** [str(e)] is kept in the exception; a [KeyError] keeps the [repr] of its
    key, which is what [str] of a [KeyError] prints. *)
Inductive exn : Type :=
  | RequestException (msg : string)
  | KeyError (key_repr : string)
  | IndexError (msg : string)
  | TypeError (msg : string)
  | ValueError (msg : string)
  | OverflowError (msg : string)
  | ZeroDivisionError (msg : string)
  | OtherException (msg : string).

Definition exn_str (e : exn) : string :=
  match e with
  | RequestException m | KeyError m | IndexError m | TypeError m
  | ValueError m | OverflowError m | ZeroDivisionError m
  | OtherException m => m
  end.

(** The classes named in the [except] clauses of the program. *)
Inductive exn_class : Type := CRequestException | CKeyError | CException.

Definition isinstance (e : exn) (c : exn_class) : bool :=
  match c, e with
  | CException, _ => true
  | CRequestException, RequestException _ => true
  | CKeyError, KeyError _ => true
  | _, _ => false
  end.

Inductive result (A : Type) : Type :=
  | Ok (a : A)
  | Raise (e : exn).
Arguments Ok {A} a.
Arguments Raise {A} e.

#[global] Instance result_ret : MRet result := fun A a => Ok a.

#[global] Instance result_bind : MBind result := fun A B k r =>
  match r with
  | Ok a => k a
  | Raise e => Raise e
  end.

#[global] Instance result_fmap : FMap result := fun A B f r =>
  match r with
  | Ok a => Ok (f a)
  | Raise e => Raise e
  end.

(** [try: body except c1 as e: h1 e ... ]: the first clause whose class the
    exception is an instance of handles it; with no such clause it goes on
    to the caller. *)
Fixpoint handle {A : Type} (hs : list (exn_class * (exn -> A))) (e : exn)
    : result A :=
  match hs with
  | [] => Raise e
  | (c, h) :: hs' => if isinstance e c then Ok (h e) else handle hs' e
  end.

Definition try_except {A : Type} (body : result A)
    (hs : list (exn_class * (exn -> A))) : result A :=
  match body with
  | Ok a => Ok a
  | Raise e => handle hs e
  end.

(** ** Values *)

(** The Python objects that [response.json()] builds and that the tools
    return.  A [dict] with [str] keys is an association list read by its
    first match. *)
Inductive value : Type :=
  | VNone
  | VBool (b : bool)
  | VInt (n : Z)
  | VFloat (f : float)
  | VStr (s : string)
  | VList (l : list value)
  | VDict (d : list (string * value)).

(** What both tools return: a [dict] with [str] keys. *)
Abbreviation payload := (gmap string value).

Definition error_payload (msg : string) : payload := {[ "error" := VStr msg ]}.

Definition type_name (v : value) : string :=
  match v with
  | VNone => "NoneType"
  | VBool _ => "bool"
  | VInt _ => "int"
  | VFloat _ => "float"
  | VStr _ => "str"
  | VList _ => "list"
  | VDict _ => "dict"
  end.

(** [repr] of a [str] without quotes, backslashes or control characters,
    as the keys of this program are. *)
Definition repr_str (s : string) : string := "'" +:+ s +:+ "'".

Fixpoint assoc (k : string) (d : list (string * value)) : option value :=
  match d with
  | [] => None
  | (k', v) :: d' => if String.eqb k k' then Some v else assoc k d'
  end.

Definition not_subscriptable (v : value) : exn :=
  TypeError ("'" +:+ type_name v +:+ "' object is not subscriptable").

(** [v[k]] for a [str] key [k]. *)
Definition getitem (v : value) (k : string) : result value :=
  match v with
  | VDict d =>
      match assoc k d with
      | Some x => Ok x
      | None => Raise (KeyError (repr_str k))
      end
  | VList _ => Raise (TypeError "list indices must be integers or slices, not str")
  | VStr _ => Raise (TypeError "string indices must be integers, not 'str'")
  | _ => Raise (not_subscriptable v)
  end.

(** [v[0]]. A parsed JSON object has no [int] key. *)
Definition getitem0 (v : value) : result value :=
  match v with
  | VDict _ => Raise (KeyError "0")
  | VList [] => Raise (IndexError "list index out of range")
  | VList (x :: _) => Ok x
  | VStr EmptyString => Raise (IndexError "string index out of range")
  | VStr (String c _) => Ok (VStr (String c EmptyString))
  | _ => Raise (not_subscriptable v)
  end.

(** ** Strings *)

(** [str.lower] on code points below 256: the letters A-Z and the capital
    letters of Latin-1 (U+00C0 to U+00DE, the multiplication sign apart) move
    up by 32; every other character stays. *)
Definition lower_char (c : ascii) : ascii :=
  let n := N_of_ascii c in
  if ((65 <=? n)%N && (n <=? 90)%N)
     || ((192 <=? n)%N && (n <=? 222)%N && negb (n =? 215)%N)
  then ascii_of_N (n + 32) else c.

Fixpoint lower (s : string) : string :=
  match s with
  | EmptyString => EmptyString
  | String c s' => String (lower_char c) (lower s')
  end.

(** [str.strip]: the program never calls it; the specification's
    normalisation does (see [normalize_spec]). *)
Definition is_space (c : ascii) : bool :=
  let n := N_of_ascii c in
  ((9 <=? n)%N && (n <=? 13)%N) || ((28 <=? n)%N && (n <=? 32)%N)
  || (n =? 133)%N || (n =? 160)%N.

Fixpoint lstrip (s : string) : string :=
  match s with
  | EmptyString => EmptyString
  | String c s' => if is_space c then lstrip s' else s
  end.

Fixpoint rstrip (s : string) : string :=
  match s with
  | EmptyString => EmptyString
  | String c s' =>
      match rstrip s' with
      | EmptyString => if is_space c then EmptyString else String c EmptyString
      | r => String c r
      end
  end.

Definition strip (s : string) : string := rstrip (lstrip s).

(** ** Floats *)

(** The functions of [math] and the power operator that end in the C
    library: what they return, or raise ([ValueError: math domain error],
    [OverflowError]), is the platform's. *)
Class PyMath : Type := {
  math_sin : float -> result float;
  math_cos : float -> result float;
  math_asin : float -> result float;
  float_pow : float -> float -> result float
}.

(** [math.sqrt]: the IEEE square root, and a domain error below zero. *)
Definition math_sqrt (x : float) : result float :=
  let r := PrimFloat.sqrt x in
  if is_nan r && negb (is_nan x)
  then Raise (ValueError "math domain error")
  else Ok r.

(** [math.radians]: one multiplication by the double nearest to pi/180. *)
Definition degToRad : float := (3.14159265358979323846 / 180)%float.

Definition radians (x : float) : float := (x * degToRad)%float.

(** [round(x, ndigits)] on a float, for [ndigits >= 0]: the decimal
    expansion of the exact value of [x] is cut after [ndigits] places,
    a tie going to the even last digit, and the decimal read back as the
    nearest double. *)
Definition round_half_even (num : Z) (den : positive) : Z :=
  let q := (num / Zpos den)%Z in
  let r := (num mod Zpos den)%Z in
  match (2 * r ?= Zpos den)%Z with
  | Lt => q
  | Gt => (q + 1)%Z
  | Eq => if Z.even q then q else (q + 1)%Z
  end.

Definition pow10 (ndigits : nat) : positive :=
  Z.to_pos (10 ^ Z.of_nat ndigits).

(** The digits of [m * 2^e * 10^ndigits], as an integer. *)
Definition decimal_digits (m : positive) (e : Z) (ndigits : nat) : Z :=
  match e with
  | Zneg p => round_half_even (Zpos (m * pow10 ndigits)) (2 ^ p)%positive
  | _ => (Zpos (m * pow10 ndigits) * 2 ^ e)%Z
  end.

(** The double nearest to [(-1)^s * n / 10^ndigits]. *)
Definition decimal_to_double (s : bool) (n : Z) (ndigits : nat) : spec_float :=
  match n with
  | Zpos p => SF64div (S754_finite s p 0) (S754_finite false (pow10 ndigits) 0)
  | _ => S754_zero s
  end.

Definition float_round (x : float) (ndigits : nat) : result float :=
  match Prim2SF x with
  | S754_finite s m e =>
      if (323 <? ndigits)%nat then Ok x
      else
        match decimal_to_double s (decimal_digits m e ndigits) ndigits with
        | S754_infinity _ =>
            Raise (OverflowError "rounded value too large to represent")
        | r => Ok (SF2Prim r)
        end
  | _ => Ok x
  end.

(** ** haversine_distance *)

Section Distance.
Context {M : PyMath}.

Definition haversine_distance (lat1 lon1 lat2 lon2 : float) : result float :=
  let lat1 := radians lat1 in
  let lon1 := radians lon1 in
  let lat2 := radians lat2 in
  let lon2 := radians lon2 in
  let dlon := (lon2 - lon1)%float in
  let dlat := (lat2 - lat1)%float in
  sin_dlat ← math_sin (dlat / 2)%float;
  sq_dlat ← float_pow sin_dlat 2%float;
  cos1 ← math_cos lat1;
  cos2 ← math_cos lat2;
  sin_dlon ← math_sin (dlon / 2)%float;
  sq_dlon ← float_pow sin_dlon 2%float;
  let a := (sq_dlat + cos1 * cos2 * sq_dlon)%float in
  root ← math_sqrt a;
  angle ← math_asin root;
  let c := (2 * angle)%float in
  let r := 6371%float in
  Ok (c * r)%float.

(** ** calculate_distance *)

Record coords : Type := Coords { lat : float; lon : float }.

Definition city_coordinates : gmap string coords :=
  list_to_map [
    ("malaga", Coords 36.7213 (-4.4213));
    ("madrid", Coords 40.4168 (-3.7038));
    ("barcelona", Coords 41.3851 2.1734);
    ("valencia", Coords 39.4699 (-0.3763));
    ("seville", Coords 37.3891 (-5.9845));
    ("fuengirola", Coords 36.5393 (-4.6249));
    ("marbella", Coords 36.5100 (-4.8861));
    ("london", Coords 51.5074 (-0.1278));
    ("paris", Coords 48.8566 2.3522);
    ("berlin", Coords 52.5200 13.4050);
    ("rome", Coords 41.9028 12.4964);
    ("amsterdam", Coords 52.3676 4.9041);
    ("lisbon", Coords 38.7223 (-9.1393));
    ("new york", Coords 40.7128 (-74.0060));
    ("los angeles", Coords 34.0522 (-118.2437));
    ("chicago", Coords 41.8781 (-87.6298));
    ("toronto", Coords 43.6532 (-79.3832));
    ("mexico city", Coords 19.4326 (-99.1332));
    ("buenos aires", Coords 34.6037 (-58.3816));
    ("tokyo", Coords 35.6762 139.6503);
    ("beijing", Coords 39.9042 116.4074);
    ("sydney", Coords 33.8688 151.2093);
    ("singapore", Coords 1.3521 103.8198);
    ("dubai", Coords 25.2048 55.2708)
  ].

(** [k in d] and [d[k]] on a [dict]. *)
Definition dict_contains {A : Type} (d : gmap string A) (k : string) : bool :=
  match d !! k with
  | Some _ => true
  | None => false
  end.

Definition dict_getitem {A : Type} (d : gmap string A) (k : string) : result A :=
  match d !! k with
  | Some v => Ok v
  | None => Raise (KeyError (repr_str k))
  end.

Definition distance_payload (from_city to_city : string) (km miles : float)
    : payload :=
  list_to_map [
    ("from_city", VStr from_city);
    ("to_city", VStr to_city);
    ("distance_km", VFloat km);
    ("distance_miles", VFloat miles)
  ].

Definition distance_handlers : list (exn_class * (exn -> payload)) :=
  [ (CKeyError, fun e => error_payload ("City not found: " +:+ exn_str e));
    (CException, fun e => error_payload (exn_str e)) ].

Definition calculate_distance (from_city to_city : string) : result payload :=
  try_except
    (let from_city_lower := lower from_city in
     let to_city_lower := lower to_city in
     if negb (dict_contains city_coordinates from_city_lower) then
       Ok (error_payload
             ("Coordinates for " +:+ from_city
              +:+ " not found. Please try another city."))
     else if negb (dict_contains city_coordinates to_city_lower) then
       Ok (error_payload
             ("Coordinates for " +:+ to_city
              +:+ " not found. Please try another city."))
     else
       from_coords ← dict_getitem city_coordinates from_city_lower;
       to_coords ← dict_getitem city_coordinates to_city_lower;
       distance_km ← haversine_distance (lat from_coords) (lon from_coords)
                                         (lat to_coords) (lon to_coords);
       let distance_miles := (distance_km * 0.621371)%float in
       km ← float_round distance_km 2;
       miles ← float_round distance_miles 2;
       Ok (distance_payload from_city to_city km miles))
    distance_handlers.

End Distance.

(** ** Arithmetic on values *)

(** [float(n)] for an [int]. *)
Definition float_of_int (n : Z) : result float :=
  match binary_normalize prec emax n 0 false with
  | S754_infinity _ => Raise (OverflowError "int too large to convert to float")
  | f => Ok (SF2Prim f)
  end.

Definition int_as_spec (n : Z) : spec_float :=
  match n with
  | Z0 => S754_zero false
  | Zpos p => S754_finite false p 0
  | Zneg p => S754_finite true p 0
  end.

(** [a / b] on two [int]s: the quotient rounded once to the nearest
    double. *)
Definition int_truediv (a b : Z) : result float :=
  if (b =? 0)%Z then Raise (ZeroDivisionError "division by zero")
  else
    match SF64div (int_as_spec a) (int_as_spec b) with
    | S754_infinity _ | S754_nan =>
        Raise (OverflowError "integer division result too large for a float")
    | q => Ok (SF2Prim q)
    end.

Definition unsupported (op : string) (v : value) : exn :=
  TypeError ("unsupported operand type(s) for " +:+ op +:+ ": '"
             +:+ type_name v +:+ "' and 'int'").

Definition dquote : string := String (ascii_of_N 34) EmptyString.

Definition cannot_concatenate (v : value) : exn :=
  TypeError ("can only concatenate " +:+ type_name v +:+ " (not " +:+ dquote
             +:+ "int" +:+ dquote +:+ ") to " +:+ type_name v).

Fixpoint str_repeat (s : string) (n : nat) : string :=
  match n with
  | O => EmptyString
  | S n' => s +:+ str_repeat s n'
  end.

Fixpoint list_repeat {A : Type} (l : list A) (n : nat) : list A :=
  match n with
  | O => []
  | S n' => l ++ list_repeat l n'
  end.

(** [v * k], [v / k] and [v + k] for an [int] literal [k]. *)
Definition py_mul (v : value) (k : Z) : result value :=
  match v with
  | VInt n => Ok (VInt (n * k))
  | VBool b => Ok (VInt (Z.b2z b * k))
  | VFloat f => kf ← float_of_int k; Ok (VFloat (f * kf)%float)
  | VStr s => Ok (VStr (str_repeat s (Z.to_nat k)))
  | VList l => Ok (VList (list_repeat l (Z.to_nat k)))
  | VNone | VDict _ => Raise (unsupported "*" v)
  end.

Definition py_truediv (v : value) (k : Z) : result value :=
  match v with
  | VInt n => VFloat <$> int_truediv n k
  | VBool b => VFloat <$> int_truediv (Z.b2z b) k
  | VFloat f =>
      kf ← float_of_int k;
      if (k =? 0)%Z then Raise (ZeroDivisionError "float division by zero")
      else Ok (VFloat (f / kf)%float)
  | _ => Raise (unsupported "/" v)
  end.

Definition py_add (v : value) (k : Z) : result value :=
  match v with
  | VInt n => Ok (VInt (n + k))
  | VBool b => Ok (VInt (Z.b2z b + k))
  | VFloat f => kf ← float_of_int k; Ok (VFloat (f + kf)%float)
  | VStr _ | VList _ => Raise (cannot_concatenate v)
  | VNone | VDict _ => Raise (unsupported "+" v)
  end.

(** [round(v, ndigits)] for [ndigits >= 0]: an [int] is its own rounding. *)
Definition py_round (v : value) (ndigits : nat) : result value :=
  match v with
  | VFloat f => VFloat <$> float_round f ndigits
  | VInt n => Ok (VInt n)
  | VBool b => Ok (VInt (Z.b2z b))
  | _ => Raise (TypeError ("type " +:+ type_name v
                           +:+ " doesn't define __round__ method"))
  end.

(** ** get_weather *)

(** What [requests.get] hands back: the status, the body as text, and what
    [response.json()] gives when it is called. *)
Record response : Type := Response {
  status_code : Z;
  text : string;
  json : result value
}.

Definition weather_payload (city : string)
    (temperature temperature_f conditions humidity wind_speed pressure : value)
    : payload :=
  list_to_map [
    ("city", VStr city);
    ("temperature", temperature);
    ("temperature_f", temperature_f);
    ("conditions", conditions);
    ("humidity", humidity);
    ("wind_speed", wind_speed);
    ("pressure", pressure)
  ].

Definition default_api_key : string := "123455557777888899999999999".

Section Weather.
(** The process environment and the network. *)
Context (environ : gmap string string).
Context (requests_get : string -> result response).

Definition weather_url (city : string) : string :=
  let api_key := default default_api_key (environ !! "OPENWEATHER_API_KEY") in
  "https://api.openweathermap.org/data/2.5/weather?q=" +:+ city
  +:+ "&appid=" +:+ api_key +:+ "&units=metric".

(** The dictionary display of [weather_data]: its values in the order they
    are written. *)
Definition weather_data (city : string) (data : value) : result payload :=
  temperature ← getitem data "main" ≫= fun m => getitem m "temp";
  temperature_f ←
    (t ← getitem data "main" ≫= fun m => getitem m "temp";
     t9 ← py_mul t 9;
     t95 ← py_truediv t9 5;
     sum ← py_add t95 32;
     py_round sum 1);
  conditions ←
    (w ← getitem data "weather";
     w0 ← getitem0 w;
     getitem w0 "description");
  humidity ← getitem data "main" ≫= fun m => getitem m "humidity";
  wind_speed ← getitem data "wind" ≫= fun m => getitem m "speed";
  pressure ← getitem data "main" ≫= fun m => getitem m "pressure";
  Ok (weather_payload city temperature temperature_f conditions humidity
        wind_speed pressure).

Definition weather_handlers : list (exn_class * (exn -> payload)) :=
  [ (CRequestException,
     fun e => error_payload ("Network error: " +:+ exn_str e));
    (CKeyError,
     fun e => error_payload ("Could not parse weather data: " +:+ exn_str e));
    (CException, fun e => error_payload (exn_str e)) ].

(** The body of the [try] statement. *)
Definition get_weather_body (city : string) : result payload :=
  let url := weather_url city in
  response ← requests_get url;
  if (status_code response =? 200)%Z then
    data ← json response;
    weather_data city data
  else
    let error_msg :=
      "API Error: " +:+ pretty (status_code response) +:+ " - "
      +:+ text response in
    Ok (error_payload error_msg).

Definition get_weather (city : string) : result payload :=
  try_except (get_weather_body city) weather_handlers.

End Weather.

(** ** The specification's tables and formulas *)

(** The gazetteer as the specification lists it: name, latitude,
    longitude. *)
Definition gazetteer_spec : list (string * (float * float)) := [
  ("malaga", (36.7213, -4.4213)); ("madrid", (40.4168, -3.7038));
  ("barcelona", (41.3851, 2.1734)); ("valencia", (39.4699, -0.3763));
  ("seville", (37.3891, -5.9845)); ("fuengirola", (36.5393, -4.6249));
  ("marbella", (36.5100, -4.8861)); ("london", (51.5074, -0.1278));
  ("paris", (48.8566, 2.3522)); ("berlin", (52.5200, 13.4050));
  ("rome", (41.9028, 12.4964)); ("amsterdam", (52.3676, 4.9041));
  ("lisbon", (38.7223, -9.1393)); ("new york", (40.7128, -74.0060));
  ("los angeles", (34.0522, -118.2437)); ("chicago", (41.8781, -87.6298));
  ("toronto", (43.6532, -79.3832)); ("mexico city", (19.4326, -99.1332));
  ("buenos aires", (34.6037, -58.3816)); ("tokyo", (35.6762, 139.6503));
  ("beijing", (39.9042, 116.4074)); ("sydney", (33.8688, 151.2093));
  ("singapore", (1.3521, 103.8198)); ("dubai", (25.2048, 55.2708))
]%float.

Definition spec_coords (e : float * float) : coords := Coords (fst e) (snd e).


(** The message of a failed lookup. *)
Definition not_found (city : string) : payload :=
  error_payload ("Coordinates for " +:+ city
                 +:+ " not found. Please try another city.").

(** What [calculate_distance] does with two points it has found: both
    distances rounded, the names echoed; an exception of the arithmetic goes
    to the handlers. *)
Definition rounded_distances {M : PyMath} (p1 p2 : coords)
    : result (float * float) :=
  distance_km ← haversine_distance (lat p1) (lon p1) (lat p2) (lon p2);
  km ← float_round distance_km 2;
  miles ← float_round (distance_km * 0.621371)%float 2;
  Ok (km, miles).

Definition found_result {M : PyMath} (from_city to_city : string)
    (p1 p2 : coords) : result payload :=
  match rounded_distances p1 p2 with
  | Ok (km, miles) => Ok (distance_payload from_city to_city km miles)
  | Raise e => handle distance_handlers e
  end.

(** The haversine formula as the specification writes it: both points in
    radians, the two differences, [a = sin^2(dlat/2) + cos(lat1) cos(lat2)
    sin^2(dlon/2)], [c = 2 asin(sqrt a)], and [c * 6371]. *)
Definition sin_squared {M : PyMath} (x : float) : result float :=
  s ← math_sin x; float_pow s 2%float.

Definition haversine_spec {M : PyMath} (p1 p2 : coords) : result float :=
  let phi1 := radians (lat p1) in
  let phi2 := radians (lat p2) in
  let dlat := (phi2 - phi1)%float in
  let dlon := (radians (lon p2) - radians (lon p1))%float in
  h1 ← sin_squared (dlat / 2)%float;
  c1 ← math_cos phi1;
  c2 ← math_cos phi2;
  h2 ← sin_squared (dlon / 2)%float;
  root ← math_sqrt (h1 + c1 * c2 * h2)%float;
  angle ← math_asin root;
  Ok (2 * angle * 6371)%float.

(** [n] is the integer nearest to [num / den], the even one at a tie. *)
Definition nearest_even (num : Z) (den : positive) (n : Z) : Prop :=
  (2 * Z.abs (num - n * Zpos den) <= Zpos den)%Z
  /\ ((2 * Z.abs (num - n * Zpos den))%Z = Zpos den -> Z.even n = true).

(** The exact value of [m * 2^e * 10^ndigits] as a fraction. *)
Definition scaled_num (m : positive) (e : Z) (ndigits : nat) : Z :=
  Zpos m * 10 ^ Z.of_nat ndigits * 2 ^ Z.max e 0.

Definition scaled_den (e : Z) : positive := Z.to_pos (2 ^ Z.max (- e) 0).

(** [round((t * 9/5) + 32, 1)], the expression of [temperature_f]. *)
Definition fahrenheit (t : value) : result value :=
  t9 ← py_mul t 9;
  t95 ← py_truediv t9 5;
  sum ← py_add t95 32;
  py_round sum 1.

(** The keys [get_weather] subscripts the response with. *)
Definition weather_keys : list string :=
  ["main"; "temp"; "weather"; "description"; "humidity"; "wind"; "speed";
   "pressure"].

(** A response to run [get_weather] on. *)
Definition london_main : list (string * value) :=
  [("temp", VFloat 21.5); ("humidity", VInt 40); ("pressure", VInt 1013)].

Definition london_body : list (string * value) :=
  [ ("weather", VList [VDict [("description", VStr "clear sky")]]);
    ("main", VDict london_main);
    ("wind", VDict [("speed", VFloat 3.6)]) ].

Definition london_response : response :=
  Response 200 "{...}" (Ok (VDict london_body)).

(** ** Laws of the platform's mathematics *)

(** The sine is odd and a square does not see the sign: what the symmetry
    of the distance rests on. *)
Class SignLaws (M : PyMath) : Prop := {
  sin_odd : forall x, math_sin (- x)%float = PrimFloat.opp <$> math_sin x;
  pow2_even : forall x, float_pow (- x)%float 2%float = float_pow x 2%float
}.

(** Exact values at zero and a cosine within [-1, 1]: what a distance of
    zero rests on. *)
Class ZeroLaws (M : PyMath) : Prop := {
  sin_zero : math_sin 0%float = Ok 0%float;
  pow2_zero : float_pow 0%float 2%float = Ok 0%float;
  asin_zero : math_asin 0%float = Ok 0%float;
  cos_bounded : forall x, is_finite x = true ->
    exists c, math_cos x = Ok c /\ (abs c <=? 1)%float = true
}.

(** An instance to run the functions on: the small-angle approximations
    [sin x = x], [asin x = x], [cos x = 1], and a square by one
    multiplication (the program raises to no other power). *)
Definition small_angle_math : PyMath := {|
  math_sin x := Ok x;
  math_cos x := Ok 1%float;
  math_asin x := Ok x;
  float_pow x y :=
    if (y =? 2)%float then Ok (x * x)%float
    else Raise (OtherException "power other than 2")
|}.

(** ** The rest of the program *)

(** The body of the [try] statement of [calculate_distance]. *)
Definition calculate_distance_body {M : PyMath} (from_city to_city : string)
    : result payload :=
  let from_city_lower := lower from_city in
  let to_city_lower := lower to_city in
  if negb (dict_contains city_coordinates from_city_lower) then
    Ok (error_payload
          ("Coordinates for " +:+ from_city
           +:+ " not found. Please try another city."))
  else if negb (dict_contains city_coordinates to_city_lower) then
    Ok (error_payload
          ("Coordinates for " +:+ to_city
           +:+ " not found. Please try another city."))
  else
    from_coords ← dict_getitem city_coordinates from_city_lower;
    to_coords ← dict_getitem city_coordinates to_city_lower;
    distance_km ← haversine_distance (lat from_coords) (lon from_coords)
                                      (lat to_coords) (lon to_coords);
    let distance_miles := (distance_km * 0.621371)%float in
    km ← float_round distance_km 2;
    miles ← float_round distance_miles 2;
    Ok (distance_payload from_city to_city km miles).

(** A temperature that is no number: [None], a [str], a [list], a
    [dict]. *)
Definition non_numeric (v : value) : bool :=
  match v with
  | VNone | VStr _ | VList _ | VDict _ => true
  | VBool _ | VInt _ | VFloat _ => false
  end.

Definition newline : string := String (ascii_of_N 10) EmptyString.

(** *** The agents and the command loop *)

Section Agents.
(** An agent is a black box with a memory: called on a query it moves to a
    new state and returns a response, whose [message] is kept here (a [str],
    as the annotations of the program have it), or raises. *)
Context {St : Type}.

Definition agent : Type := St -> string -> St * result string.

Definition ask_weather_agent (weather_agent : agent) (st : St)
    (query : string) : St * result string :=
  let '(st', response) := weather_agent st query in
  (st',
   try_except (message ← response; Ok message)
     [ (CException,
        fun e => "Error getting weather information: " +:+ exn_str e) ]).

Definition ask_distance_agent (distance_agent : agent) (st : St)
    (query : string) : St * result string :=
  let '(st', response) := distance_agent st query in
  (st',
   try_except (message ← response; Ok message)
     [ (CException,
        fun e => "Error calculating distance: " +:+ exn_str e) ]).

(** What [main] writes: a line given to [print], or the prompt of
    [input]. *)
Inductive event : Type :=
  | Printed (line : string)
  | Prompted (prompt : string).

(** A run of [main]: the state the coordinator is left in, the lines of the
    input not read, what was written, and whether [main] returned or an
    exception left it. *)
Record run : Type := Run {
  run_state : St;
  run_stdin : list string;
  run_out : list event;
  run_result : result unit
}.

Definition prompt : string := newline +:+ "What would you like to know? ".

(** [user_input.lower() in ["exit", "quit"]]. *)
Definition is_quit (user_input : string) : bool :=
  String.eqb (lower user_input) "exit" || String.eqb (lower user_input) "quit".

(** The [try] statement inside the loop: what it prints, the exception of
    the coordinator caught. *)
Definition process_request (response : result string) : result (list event) :=
  events ← try_except
    (message ← response; Ok [Printed (newline +:+ message)])
    [ (CException,
       fun e => [ Printed ("Sorry, I encountered an error: " +:+ exn_str e);
                  Printed "Please try again with a different query." ]) ];
  Ok (Printed "Processing your request..." :: events).

(** The [while True] loop, on the lines the input still holds; [input] at
    the end of the input raises [EOFError], outside the [try]. *)
Fixpoint main_loop (coordinator_agent : agent) (st : St) (stdin : list string)
    : run :=
  match stdin with
  | [] =>
      Run st [] [Prompted prompt]
        (Raise (OtherException "EOF when reading a line"))
  | user_input :: rest =>
      if is_quit user_input then
        Run st rest
          [ Prompted prompt;
            Printed "Thank you for using the Weather & Distance Multi-Agent App. Goodbye!" ]
          (Ok tt)
      else
        let '(st', response) := coordinator_agent st user_input in
        match process_request response with
        | Ok events =>
            let r := main_loop coordinator_agent st' rest in
            Run (run_state r) (run_stdin r)
              (Prompted prompt :: events ++ run_out r) (run_result r)
        | Raise e =>
            Run st' rest [Prompted prompt; Printed "Processing your request..."]
              (Raise e)
        end
  end.

Definition banner (environ : gmap string string) : list event :=
  [ Printed "Welcome to the Weather & Distance Multi-Agent App!";
    Printed "This app can provide weather information and calculate distances between cities.";
    Printed "Type 'exit' to quit." ]
  ++ (if negb (dict_contains environ "OPENWEATHER_API_KEY") then
        [ Printed (newline +:+ "Note: No OPENWEATHER_API_KEY environment variable found.");
          Printed "Using default API key. For production use, set your own API key with:";
          Printed "export OPENWEATHER_API_KEY=your_api_key_here" ]
      else [])
  ++ [ Printed (newline +:+ "Example queries:");
       Printed "- What's the weather like in London?";
       Printed "- How far is Barcelona from Madrid?";
       Printed "- What's the weather in Tokyo and how far is it from New York?" ].

Definition main (environ : gmap string string) (coordinator_agent : agent)
    (st : St) (stdin : list string) : run :=
  let r := main_loop coordinator_agent st stdin in
  Run (run_state r) (run_stdin r) (banner environ ++ run_out r) (run_result r).

Definition is_prompt (ev : event) : bool :=
  match ev with
  | Prompted _ => true
  | Printed _ => false
  end.

(** How many times [input] was called. *)
Definition prompts (out : list event) : nat := length (filter is_prompt out).

(** The state after the coordinator has answered each of the lines in
    turn. *)
Definition after_queries (coordinator_agent : agent) (st : St)
    (queries : list string) : St :=
  fold_left (fun s q => fst (coordinator_agent s q)) queries st.

End Agents.

(** An agent to run the loop on: it counts its calls, echoes a query and
    raises on an empty one. *)
Definition echo_agent : @agent nat :=
  fun n query =>
    (S n,
     match query with
     | EmptyString => Raise (ValueError "empty query")
     | _ => Ok ("You asked: " +:+ query)
     end).

(** The small-angle approximations with the domain of the arcsine
    checked, as [math.asin] checks it. *)
Definition checked_small_angle_math : PyMath := {|
  math_sin x := Ok x;
  math_cos x := Ok 1%float;
  math_asin x :=
    if (abs x <=? 1)%float then Ok x
    else Raise (ValueError "math domain error");
  float_pow x y :=
    if (y =? 2)%float then Ok (x * x)%float
    else Raise (OtherException "power other than 2")
|}.

(** * Facts *)

(** ** binary64 arithmetic, from its specification *)


Lemma binary_round_aux_opp (s : bool) (m e : Z) (l : location) :
  binary_round_aux prec emax (negb s) m e l
  = SFopp (binary_round_aux prec emax s m e l).
Proof.
  unfold binary_round_aux.
  destruct (shr_fexp prec emax m e l) as [mrs e1].
  destruct (shr_fexp prec emax _ e1 loc_Exact) as [mrs2 e2].
  destruct (shr_m mrs2); [reflexivity| |reflexivity].
  destruct (e2 <=? emax - prec)%Z; reflexivity.
Qed.

Lemma binary_round_opp (s : bool) (m : positive) (e : Z) :
  binary_round prec emax (negb s) m e = SFopp (binary_round prec emax s m e).
Proof.
  unfold binary_round.
  destruct (shl_align m e _) as [mz ez]. apply binary_round_aux_opp.
Qed.

Lemma binary_normalize_opp (m e : Z) :
  binary_normalize prec emax (- m) e false
  = match m with
    | Z0 => S754_zero false
    | _ => SFopp (binary_normalize prec emax m e false)
    end.
Proof.
  destruct m as [|p|p]; simpl; [reflexivity| |].
  - apply (binary_round_opp false).
  - apply (binary_round_opp true).
Qed.

Lemma SFsub_swap (x y : spec_float) :
  SF64sub y x = SFopp (SF64sub x y) \/ SF64sub y x = SF64sub x y.
Proof.
  destruct x as [sx|sx| |sx mx ex], y as [sy|sy| |sy my ey];
    try (destruct sx, sy; simpl; auto; fail);
    try (destruct sx; simpl; auto; fail);
    try (destruct sy; simpl; auto; fail); simpl; auto.
  unfold SF64sub, SFsub. rewrite (Z.min_comm ey ex).
  set (a := cond_Zopp sx _). set (b := cond_Zopp sy _).
  replace (b - a)%Z with (- (a - b))%Z by lia.
  rewrite binary_normalize_opp. destruct (a - b)%Z; auto.
Qed.

Lemma SFdiv_opp_l (x y : spec_float) :
  SF64div (SFopp x) y = SFopp (SF64div x y).
Proof.
  destruct x as [sx|sx| |sx mx ex], y as [sy|sy| |sy my ey]; simpl;
    try reflexivity; try (destruct sx, sy; reflexivity).
  unfold SF64div, SFdiv.
  destruct (SFdiv_core_binary prec emax (Z.pos mx) ex (Z.pos my) ey)
    as [[mz ez] lz].
  rewrite <- binary_round_aux_opp. destruct sx, sy; reflexivity.
Qed.

Lemma SFmul_comm (x y : spec_float) : SF64mul x y = SF64mul y x.
Proof.
  destruct x as [sx|sx| |sx mx ex], y as [sy|sy| |sy my ey]; simpl;
    try reflexivity; try (destruct sx, sy; reflexivity).
  unfold SF64mul, SFmul.
  rewrite (Pos.mul_comm my mx), (Z.add_comm ey ex).
  destruct sx, sy; reflexivity.
Qed.

Lemma SFmul_opp_opp (x y : spec_float) :
  SF64mul (SFopp x) (SFopp y) = SF64mul x y.
Proof.
  destruct x as [sx|sx| |sx mx ex], y as [sy|sy| |sy my ey]; simpl;
    try reflexivity; destruct sx, sy; reflexivity.
Qed.


Lemma float_sub_swap (x y : float) :
  (y - x = - (x - y) \/ y - x = x - y)%float.
Proof.
  destruct (SFsub_swap (Prim2SF x) (Prim2SF y)) as [H|H]; [left|right];
    apply Prim2SF_inj; rewrite ?opp_spec, !sub_spec; exact H.
Qed.

Lemma float_div_opp_l (x y : float) : (- x / y = - (x / y))%float.
Proof.
  apply Prim2SF_inj. rewrite opp_spec, !div_spec, opp_spec.
  apply SFdiv_opp_l.
Qed.

Lemma float_mul_comm (x y : float) : (x * y = y * x)%float.
Proof. apply Prim2SF_inj. rewrite !mul_spec. apply SFmul_comm. Qed.

Lemma float_mul_opp_opp (x y : float) : (- x * - y = x * y)%float.
Proof.
  apply Prim2SF_inj. rewrite !mul_spec, !opp_spec. apply SFmul_opp_opp.
Qed.

Lemma SFeqb_refl (x : spec_float) :
  SFeqb x x = match x with S754_nan => false | _ => true end.
Proof.
  destruct x as [s|s| |s m e]; try (destruct s); try reflexivity.
  all: unfold SFeqb, SFcompare; rewrite Z.compare_refl, Pos.compare_cont_refl;
    reflexivity.
Qed.

Lemma is_finite_spec (x : float) :
  is_finite x = match Prim2SF x with
                | S754_zero _ | S754_finite _ _ _ => true
                | _ => false
                end.
Proof.
  unfold is_finite, is_nan, is_infinity.
  rewrite !FloatAxioms.eqb_spec, abs_spec, SFeqb_refl.
  destruct (Prim2SF x) as [s|s| |s m e]; reflexivity.
Qed.

Lemma float_sub_diag (x : float) : is_finite x = true -> (x - x = 0)%float.
Proof.
  rewrite is_finite_spec. intros Hx.
  apply Prim2SF_inj. rewrite sub_spec.
  destruct (Prim2SF x) as [s|s| |s m e]; try discriminate.
  - destruct s; reflexivity.
  - unfold SF64sub, SFsub. rewrite Z.sub_diag. reflexivity.
Qed.

Lemma float_mul_zero_r (x : float) :
  is_finite x = true -> (x * 0 = 0 \/ x * 0 = -0)%float.
Proof.
  rewrite is_finite_spec. intros Hx.
  assert (H : Prim2SF (x * 0) = S754_zero false
              \/ Prim2SF (x * 0) = S754_zero true).
  { rewrite mul_spec. change (Prim2SF 0) with (S754_zero false).
    destruct (Prim2SF x) as [s|s| |s m e]; try discriminate;
      destruct s; simpl; auto. }
  destruct H as [H|H]; [left|right]; apply Prim2SF_inj; rewrite H; reflexivity.
Qed.

Lemma digits2_pos_size (p : positive) : digits2_pos p = Pos.size p.
Proof. induction p; simpl; congruence. Qed.

Lemma Zdigits2_bound (z k : Z) :
  (0 <= k)%Z -> (0 <= z < 2 ^ k)%Z -> (Zdigits2 z <= k)%Z.
Proof.
  intros Hk [Hz Hlt]. destruct z as [|p|p]; simpl; [lia| |lia].
  rewrite digits2_pos_size.
  destruct (Z.le_gt_cases (Z.pos (Pos.size p)) k) as [|Hgt]; [assumption|].
  exfalso.
  pose proof (Pos.size_le p) as Hle.
  assert (Hpow : (2 ^ Z.pos (Pos.size p) <= 2 * Z.pos p)%Z).
  { rewrite <- Pos2Z.inj_pow. change (2 * Z.pos p)%Z with (Z.pos p~0). lia. }
  assert (Hmono : (2 ^ (k + 1) <= 2 ^ Z.pos (Pos.size p))%Z)
    by (apply Z.pow_le_mono_r; lia).
  rewrite Z.pow_add_r in Hmono by lia. lia.
Qed.

Lemma Zdigits2_lower (p : positive) : (Z.pos p < 2 ^ Zdigits2 (Z.pos p))%Z.
Proof.
  simpl. rewrite digits2_pos_size.
  pose proof (Pos.size_gt p) as H. rewrite <- Pos2Z.inj_pow. lia.
Qed.

Lemma shr_1_bound (mrs : shr_record) (B : Z) :
  (0 <= shr_m mrs <= B)%Z -> (0 <= shr_m (shr_1 mrs) <= B)%Z.
Proof.
  destruct mrs as [m r s]. simpl.
  destruct m as [|[p|p|]|[p|p|]]; simpl; lia.
Qed.

Lemma iter_shr_1_bound (p : positive) (mrs : shr_record) (B : Z) :
  (0 <= shr_m mrs <= B)%Z -> (0 <= shr_m (SpecFloat.iter_pos shr_1 p mrs) <= B)%Z.
Proof.
  revert mrs. induction p as [p IH|p IH|]; intros mrs H; simpl.
  - apply IH, IH, shr_1_bound, H.
  - apply IH, IH, H.
  - apply shr_1_bound, H.
Qed.

Lemma shr_fexp_bound (m e : Z) (l : location) (B k : Z) :
  (0 <= m <= B)%Z -> (0 <= k)%Z -> (B < 2 ^ k)%Z ->
  let '(mrs, e') := shr_fexp prec emax m e l in
  (0 <= shr_m mrs <= B)%Z /\ (e' <= Z.max e (fexp prec emax (k + e)))%Z.
Proof.
  intros Hm Hk HB. unfold shr_fexp, shr.
  assert (Hd : (Zdigits2 m <= k)%Z) by (apply Zdigits2_bound; lia).
  assert (Hf : (fexp prec emax (Zdigits2 m + e) <= fexp prec emax (k + e))%Z)
    by (unfold fexp; lia).
  assert (H0 : (0 <= shr_m (shr_record_of_loc m l) <= B)%Z)
    by (destruct l as [|[]]; simpl; lia).
  destruct (fexp prec emax (Zdigits2 m + e) - e)%Z as [|p|p] eqn:En.
  - split; [exact H0|lia].
  - split; [apply iter_shr_1_bound, H0|lia].
  - split; [exact H0|lia].
Qed.

Lemma round_nearest_even_bound (m : Z) (l : location) :
  (m <= round_nearest_even m l <= m + 1)%Z.
Proof.
  destruct l as [|[]]; simpl; try lia. destruct (Z.even m); lia.
Qed.

(** A rounded product is finite when the exact one is small. *)
Lemma binary_round_aux_finite (s : bool) (m : positive) (e : Z) (k : Z) :
  (0 <= k <= 512)%Z -> (Z.pos m + 1 < 2 ^ k)%Z -> (e <= 0)%Z ->
  match binary_round_aux prec emax s (Z.pos m) e loc_Exact with
  | S754_zero _ | S754_finite _ _ _ => True
  | _ => False
  end.
Proof.
  intros Hk Hm He. unfold binary_round_aux.
  pose proof (shr_fexp_bound (Z.pos m) e loc_Exact (Z.pos m) k) as H1.
  destruct (shr_fexp prec emax (Z.pos m) e loc_Exact) as [mrs1 e1].
  destruct H1 as [Hm1 He1]; [lia..|].
  pose proof (round_nearest_even_bound (shr_m mrs1) (loc_of_shr_record mrs1))
    as Hr.
  pose proof (shr_fexp_bound
                (round_nearest_even (shr_m mrs1) (loc_of_shr_record mrs1))
                e1 loc_Exact (Z.pos m + 1) k) as H2.
  destruct (shr_fexp prec emax _ e1 loc_Exact) as [mrs2 e2].
  destruct H2 as [Hm2 He2]; [lia..|].
  destruct (shr_m mrs2) as [|p|p]; [exact I| |lia].
  assert (Hfin : (e2 <=? emax - prec)%Z = true).
  { apply Z.leb_le. unfold fexp, SpecFloat.emin, emax, prec in *. lia. }
  rewrite Hfin. exact I.
Qed.

Lemma valid_digits (m : positive) (e : Z) :
  bounded prec emax m e = true -> (Z.pos m < 2 ^ 53)%Z.
Proof.
  unfold bounded, canonical_mantissa. intros H.
  apply andb_true_iff in H as [H _]. apply Z.eqb_eq in H.
  pose proof (Zdigits2_lower m) as Hlow. simpl in Hlow.
  assert (Hd : (Z.pos (digits2_pos m) <= 53)%Z)
    by (unfold fexp, SpecFloat.emin, emax, prec in H; lia).
  assert (Hmono : (2 ^ Z.pos (digits2_pos m) <= 2 ^ 53)%Z)
    by (apply Z.pow_le_mono_r; lia).
  lia.
Qed.

Lemma SFleb_one (m : positive) (e : Z) :
  SFleb (S754_finite false m e) (Prim2SF 1) = true -> (e <= -52)%Z.
Proof.
  change (Prim2SF 1) with (S754_finite false 4503599627370496 (-52)).
  unfold SFleb, SFcompare.
  destruct (e ?= -52)%Z eqn:E; [| |discriminate].
  - apply Z.compare_eq in E. lia.
  - rewrite Z.compare_lt_iff in E. lia.
Qed.

Lemma float_mul_bounded_finite (c1 c2 : float) :
  (abs c1 <=? 1)%float = true -> (abs c2 <=? 1)%float = true ->
  is_finite (c1 * c2) = true.
Proof.
  rewrite !leb_spec, !abs_spec. intros H1 H2.
  pose proof (Prim2SF_valid c1) as V1. pose proof (Prim2SF_valid c2) as V2.
  assert (Hspec : match Prim2SF (c1 * c2) with
                  | S754_zero _ | S754_finite _ _ _ => True
                  | _ => False
                  end).
  { rewrite mul_spec.
    destruct (Prim2SF c1) as [s1|s1| |s1 m1 e1]; try discriminate;
      destruct (Prim2SF c2) as [s2|s2| |s2 m2 e2]; try discriminate;
      try exact I.
    unfold SF64mul, SFmul.
    apply SFleb_one in H1, H2. apply valid_digits in V1, V2.
    apply (binary_round_aux_finite _ _ _ 106); [lia| |lia].
    rewrite Pos2Z.inj_mul.
    assert (Z.pos m1 * Z.pos m2 <= (2 ^ 53 - 1) * (2 ^ 53 - 1))%Z
      by (apply Z.mul_le_mono_nonneg; lia).
    lia. }
  rewrite is_finite_spec.
  destruct (Prim2SF (c1 * c2)); tauto.
Qed.

(** ** The error monad and the handlers *)

Lemma Ok_inj {A : Type} (a b : A) : Ok a = Ok b -> a = b.
Proof. congruence. Qed.

Lemma handle_distance (e : exn) :
  exists msg, handle distance_handlers e = Ok (error_payload msg).
Proof. destruct e; simpl; eauto. Qed.

Lemma handle_weather (e : exn) :
  exists msg, handle weather_handlers e = Ok (error_payload msg).
Proof. destruct e; simpl; eauto. Qed.

Lemma error_payload_field (msg : string) :
  error_payload msg !! "error" = Some (VStr msg).
Proof. apply lookup_singleton_eq. Qed.

Lemma distance_payload_fields (f t : string) (km miles : float) :
  distance_payload f t km miles !! "from_city" = Some (VStr f)
  /\ distance_payload f t km miles !! "to_city" = Some (VStr t)
  /\ distance_payload f t km miles !! "distance_km" = Some (VFloat km)
  /\ distance_payload f t km miles !! "distance_miles" = Some (VFloat miles)
  /\ distance_payload f t km miles !! "error" = None.
Proof. repeat split; reflexivity. Qed.

Lemma distance_payload_inj (f t f' t' : string) (km miles km' miles' : float) :
  distance_payload f t km miles = distance_payload f' t' km' miles' ->
  km = km' /\ miles = miles'.
Proof.
  intros H.
  pose proof (distance_payload_fields f t km miles) as (_ & _ & Hk & Hm & _).
  pose proof (distance_payload_fields f' t' km' miles') as (_ & _ & Hk' & Hm' & _).
  rewrite H in Hk, Hm. split; congruence.
Qed.

Lemma distance_payload_not_error (f t : string) (km miles : float) (msg : string) :
  distance_payload f t km miles = error_payload msg -> False.
Proof.
  intros H.
  pose proof (distance_payload_fields f t km miles) as (_ & _ & _ & _ & He).
  rewrite H, error_payload_field in He. discriminate.
Qed.

(** ** calculate_distance by cases of the two lookups *)

Section DistanceFacts.
Context {M : PyMath}.

Lemma calculate_distance_cases (from_city to_city : string) :
  calculate_distance from_city to_city =
  match city_coordinates !! lower from_city with
  | None => Ok (not_found from_city)
  | Some p1 =>
      match city_coordinates !! lower to_city with
      | None => Ok (not_found to_city)
      | Some p2 => found_result from_city to_city p1 p2
      end
  end.
Proof.
  unfold calculate_distance, dict_contains, dict_getitem, found_result,
    rounded_distances.
  destruct (city_coordinates !! lower from_city) as [p1|]; [|reflexivity].
  destruct (city_coordinates !! lower to_city) as [p2|]; [|reflexivity].
  simpl.
  destruct (haversine_distance _ _ _ _) as [d|e]; [|reflexivity]. simpl.
  destruct (float_round d 2) as [km|e]; [|reflexivity]. simpl.
  destruct (float_round _ 2) as [miles|e]; reflexivity.
Qed.

Lemma found_result_total (f t : string) (p1 p2 : coords) :
  (exists km miles, rounded_distances p1 p2 = Ok (km, miles)
     /\ found_result f t p1 p2 = Ok (distance_payload f t km miles))
  \/ (exists e msg, rounded_distances p1 p2 = Raise e
     /\ found_result f t p1 p2 = Ok (error_payload msg)).
Proof.
  unfold found_result.
  destruct (rounded_distances p1 p2) as [[km miles]|e].
  - left. eauto.
  - right. destruct (handle_distance e) as [msg Hm]. eauto.
Qed.

Lemma found_result_inv (f t : string) (p1 p2 : coords) (km miles : float) :
  found_result f t p1 p2 = Ok (distance_payload f t km miles) ->
  rounded_distances p1 p2 = Ok (km, miles).
Proof.
  intros H.
  destruct (found_result_total f t p1 p2)
    as [(km' & miles' & Hr & Hf)|(e & msg & Hr & Hf)];
    rewrite Hf in H; apply Ok_inj in H.
  - apply distance_payload_inj in H as [-> ->]. exact Hr.
  - symmetry in H. apply distance_payload_not_error in H. contradiction.
Qed.

End DistanceFacts.

(** ** The gazetteer *)

Lemma gazetteer_table :
  city_coordinates = list_to_map (prod_map id spec_coords <$> gazetteer_spec).
Proof. reflexivity. Qed.

Lemma gazetteer_keys_nodup : NoDup (gazetteer_spec.*1).
Proof. compute_done. Qed.

Lemma gazetteer_dom : dom city_coordinates = list_to_set (gazetteer_spec.*1).
Proof. reflexivity. Qed.

Lemma gazetteer_lookup (k : string) (p : coords) :
  city_coordinates !! k = Some p <->
  exists e, (k, e) ∈ gazetteer_spec /\ p = spec_coords e.
Proof.
  rewrite gazetteer_table. split.
  - intros H%elem_of_list_to_map_2.
    apply list_elem_of_fmap in H as ([k' e] & Heq & Hin).
    injection Heq as -> ->. eauto.
  - intros (e & Hin & ->).
    apply elem_of_list_to_map_1.
    + rewrite <- list_fmap_compose.
      replace (fst ∘ prod_map id spec_coords) with (@fst string (float * float))
        by reflexivity.
      apply gazetteer_keys_nodup.
    + apply list_elem_of_fmap. exists (k, e). split; [reflexivity|exact Hin].
Qed.

Lemma gazetteer_radians_finite (k : string) (p : coords) :
  city_coordinates !! k = Some p ->
  is_finite (radians (lat p)) = true /\ is_finite (radians (lon p)) = true.
Proof.
  intros (e & Hin & ->)%gazetteer_lookup.
  assert (Hall : Forall (fun ke : string * (float * float) =>
                   is_finite (radians (lat (spec_coords ke.2))) = true
                   /\ is_finite (radians (lon (spec_coords ke.2))) = true)
                 gazetteer_spec)
    by (vm_compute; repeat constructor).
  rewrite Forall_forall in Hall. apply (Hall (k, e) Hin).
Qed.

(** C3 (as amended): the gazetteer of [calculate_distance] is the table the
    specification lists, which has 24 entries, not 22: a name is a key
    exactly when it is listed, with the listed latitude and longitude, the
    listed names are distinct and already lowercase, and there is no other
    key. *)
Theorem gazetteer_is_the_listed_table :
  size city_coordinates = 24%nat
  /\ length gazetteer_spec = 24%nat
  /\ NoDup (gazetteer_spec.*1)
  /\ Forall (fun k => lower k = k) (gazetteer_spec.*1)
  /\ dom city_coordinates = list_to_set (gazetteer_spec.*1)
  /\ forall (k : string) (la lo : float),
       city_coordinates !! k = Some (Coords la lo)
       <-> (k, (la, lo)) ∈ gazetteer_spec.
Proof.
  split; [reflexivity|]. split; [reflexivity|].
  split; [apply gazetteer_keys_nodup|].
  split; [vm_compute; repeat constructor|].
  split; [apply gazetteer_dom|].
  intros k la lo. rewrite gazetteer_lookup. split.
  - intros ([a b] & Hin & Heq). injection Heq as -> ->. exact Hin.
  - intros Hin. exists (la, lo). split; [exact Hin|reflexivity].
Qed.

(** C3, as stated: the table does not have 22 entries. *)
Lemma gazetteer_has_not_22_entries :
  (size city_coordinates =? 22)%nat = false.
Proof. reflexivity. Qed.

(** ** Lookups that fail *)

(** C7: when a name, lowercased, is no key of the gazetteer,
    [calculate_distance] returns (it does not raise) the error payload whose
    message carries that name as the caller wrote it: the origin when the
    origin is missing, the destination when only the destination is.  A name
    is found exactly when it is one of the listed keys, so a prefix of a key
    or a key with one letter changed is not found. *)
Theorem missing_city_is_reported (M : PyMath) (from_city to_city : string) :
  (city_coordinates !! lower from_city = None ->
   calculate_distance from_city to_city = Ok (not_found from_city))
  /\ (is_Some (city_coordinates !! lower from_city) ->
      city_coordinates !! lower to_city = None ->
      calculate_distance from_city to_city = Ok (not_found to_city))
  /\ not_found from_city !! "error"
     = Some (VStr ("Coordinates for " +:+ from_city
                   +:+ " not found. Please try another city."))
  /\ (forall k : string,
        is_Some (city_coordinates !! k) <-> k ∈ gazetteer_spec.*1)
  /\ calculate_distance "Nowhereville" "Madrid"
     = Ok (error_payload
             "Coordinates for Nowhereville not found. Please try another city.")
  /\ calculate_distance "madri" "Madrid" = Ok (not_found "madri")
  /\ calculate_distance "Madrid" "barcelone" = Ok (not_found "barcelone").
Proof.
  split; [|split; [|split; [|split; [|split; [|split]]]]].
  - intros Hf. rewrite calculate_distance_cases, Hf. reflexivity.
  - intros [p1 Hf] Ht. rewrite calculate_distance_cases, Hf, Ht. reflexivity.
  - apply error_payload_field.
  - intros k. rewrite <- elem_of_dom, gazetteer_dom.
    apply elem_of_list_to_set.
  - rewrite calculate_distance_cases. reflexivity.
  - rewrite calculate_distance_cases. reflexivity.
  - rewrite calculate_distance_cases. reflexivity.
Qed.

(** C10: when both names are missing, the error names the origin: the
    origin is looked up first, and what the destination is plays no part. *)
Theorem both_missing_reports_origin (M : PyMath) (from_city to_city : string) :
  city_coordinates !! lower from_city = None ->
  city_coordinates !! lower to_city = None ->
  calculate_distance from_city to_city = Ok (not_found from_city)
  /\ forall other : string,
       calculate_distance from_city other = Ok (not_found from_city).
Proof.
  intros Hf _. split; [|intros other];
    rewrite calculate_distance_cases, Hf; reflexivity.
Qed.

Lemma both_missing_reports_origin_witness :
  city_coordinates !! lower "Atlantis" = None
  /\ city_coordinates !! lower "El Dorado" = None
  /\ @calculate_distance small_angle_math "Atlantis" "El Dorado"
     = Ok (not_found "Atlantis")
  /\ forall other : string,
       @calculate_distance small_angle_math "Atlantis" other
       = Ok (not_found "Atlantis").
Proof.
  split; [reflexivity|]. split; [reflexivity|].
  apply (both_missing_reports_origin small_angle_math "Atlantis" "El Dorado");
    reflexivity.
Defined.

(** ** Normalisation of the names *)


Lemma lower_length (s : string) : String.length (lower s) = String.length s.
Proof. induction s as [|c s IH]; simpl; congruence. Qed.










Section Casing.
Context {M : PyMath}.


End Casing.


(** With the small-angle functions both calls succeed, and alike. *)
Example madrid_in_capitals_succeeds :
  exists km miles : float,
    @calculate_distance small_angle_math "MADRID" "barcelona"
    = Ok (distance_payload "MADRID" "barcelona" km miles)
    /\ @calculate_distance small_angle_math "madrid" "barcelona"
       = Ok (distance_payload "madrid" "barcelona" km miles).
Proof. do 2 eexists. split; vm_compute; reflexivity. Qed.

(** ** The haversine formula *)

Section HaversineFacts.
Context {M : PyMath}.

Lemma haversine_distance_spec (p1 p2 : coords) :
  haversine_distance (lat p1) (lon p1) (lat p2) (lon p2) = haversine_spec p1 p2.
Proof.
  unfold haversine_distance, haversine_spec, sin_squared.
  destruct (math_sin ((radians (lat p2) - radians (lat p1)) / 2))
    as [s1|e]; [|reflexivity]. simpl.
  destruct (float_pow s1 2) as [h1|e]; [|reflexivity]. simpl.
  destruct (math_cos (radians (lat p1))) as [c1|e]; [|reflexivity]. simpl.
  destruct (math_cos (radians (lat p2))) as [c2|e]; [|reflexivity]. simpl.
  destruct (math_sin ((radians (lon p2) - radians (lon p1)) / 2))
    as [s2|e]; [|reflexivity]. simpl.
  destruct (float_pow s2 2) as [h2|e]; reflexivity.
Qed.

Lemma rounded_distances_spec (p1 p2 : coords) :
  rounded_distances p1 p2
  = (d ← haversine_spec p1 p2;
     km ← float_round d 2;
     miles ← float_round (d * 0.621371)%float 2;
     Ok (km, miles)).
Proof. unfold rounded_distances. rewrite haversine_distance_spec. reflexivity. Qed.

Context {L : SignLaws M}.

Lemma sin_squared_opp (d : float) :
  sin_squared (- d / 2)%float = sin_squared (d / 2)%float.
Proof.
  unfold sin_squared. rewrite float_div_opp_l, sin_odd.
  destruct (math_sin (d / 2)) as [s|e]; simpl; [apply pow2_even|reflexivity].
Qed.

Lemma sin_squared_swap (x y : float) :
  sin_squared ((y - x) / 2)%float = sin_squared ((x - y) / 2)%float.
Proof.
  destruct (float_sub_swap x y) as [H|H]; rewrite H;
    [apply sin_squared_opp|reflexivity].
Qed.

Lemma haversine_spec_swap (p1 p2 : coords) (d : float) :
  haversine_spec p1 p2 = Ok d -> haversine_spec p2 p1 = Ok d.
Proof.
  unfold haversine_spec.
  rewrite (sin_squared_swap (radians (lat p2)) (radians (lat p1))).
  rewrite (sin_squared_swap (radians (lon p2)) (radians (lon p1))).
  destruct (sin_squared ((radians (lat p2) - radians (lat p1)) / 2))
    as [h1|e]; [|discriminate]. simpl.
  destruct (math_cos (radians (lat p1))) as [c1|e]; [|discriminate].
  destruct (math_cos (radians (lat p2))) as [c2|e]; [|discriminate]. simpl.
  destruct (sin_squared ((radians (lon p2) - radians (lon p1)) / 2))
    as [h2|e]; [|discriminate]. simpl.
  rewrite (float_mul_comm c2 c1). trivial.
Qed.

Lemma rounded_distances_swap (p1 p2 : coords) (r : float * float) :
  rounded_distances p1 p2 = Ok r -> rounded_distances p2 p1 = Ok r.
Proof.
  rewrite !rounded_distances_spec.
  destruct (haversine_spec p1 p2) as [d|e] eqn:Hd; [|discriminate].
  rewrite (haversine_spec_swap _ _ _ Hd). trivial.
Qed.

End HaversineFacts.

Lemma small_angle_sign_laws : SignLaws small_angle_math.
Proof.
  split; intros x; [reflexivity|].
  simpl. change (2 =? 2)%float with true. cbv iota.
  f_equal. apply float_mul_opp_opp.
Qed.

Lemma small_angle_zero_laws : ZeroLaws small_angle_math.
Proof.
  split; try reflexivity.
  intros x _. exists 1%float. split; reflexivity.
Qed.

(** ** Rounding to decimals *)

Lemma round_half_even_nearest (num : Z) (den : positive) :
  nearest_even num den (round_half_even num den).
Proof.
  unfold nearest_even, round_half_even.
  pose proof (Z.div_mod num (Zpos den) ltac:(lia)) as Hdm.
  pose proof (Z.mod_pos_bound num (Zpos den) ltac:(lia)) as Hr.
  set (q := (num / Zpos den)%Z) in *. set (r := (num mod Zpos den)%Z) in *.
  destruct (Z.compare_spec (2 * r) (Zpos den)) as [E|E|E].
  - destruct (Z.even q) eqn:Ev.
    + split; [lia|auto].
    + split; [lia|]. intros _. rewrite Z.even_add, Ev. reflexivity.
  - split; lia.
  - split; lia.
Qed.

Lemma pow10_Z (ndigits : nat) : Zpos (pow10 ndigits) = (10 ^ Z.of_nat ndigits)%Z.
Proof.
  unfold pow10. apply Z2Pos.id. apply Z.pow_pos_nonneg; lia.
Qed.

Lemma nearest_even_exact (z : Z) : nearest_even z 1 z.
Proof.
  unfold nearest_even. rewrite Z.mul_1_r, Z.sub_diag. simpl.
  split; [lia|discriminate].
Qed.

Lemma decimal_digits_nearest (m : positive) (e : Z) (ndigits : nat) :
  nearest_even (scaled_num m e ndigits) (scaled_den e)
    (decimal_digits m e ndigits).
Proof.
  unfold scaled_num, scaled_den, decimal_digits.
  destruct e as [|p|p].
  - rewrite Pos2Z.inj_mul, pow10_Z. apply nearest_even_exact.
  - rewrite Pos2Z.inj_mul, pow10_Z.
    replace (Z.max (Z.pos p) 0) with (Z.pos p) by lia.
    apply nearest_even_exact.
  - replace (Z.max (Z.neg p) 0) with 0%Z by lia.
    replace (Z.max (- Z.neg p) 0) with (Z.pos p) by lia.
    replace (Z.to_pos (2 ^ Z.pos p)) with (2 ^ p)%positive
      by (rewrite <- Pos2Z.inj_pow; reflexivity).
    replace (Z.pos m * 10 ^ Z.of_nat ndigits * 2 ^ 0)%Z
      with (Z.pos (m * pow10 ndigits))
      by (rewrite Pos2Z.inj_mul, pow10_Z; lia).
    apply round_half_even_nearest.
Qed.

(** ** Distances between two cities of the gazetteer *)

(** C2: for two names found in the gazetteer, [calculate_distance] computes
    the kilometres by the haversine formula as the specification writes it,
    the miles as the unrounded kilometres times 0.621371, and rounds both
    by the same [round(x, 2)].  That rounding takes the integer nearest to
    the exact value of [x] times 100, the even one at a tie, and reads the
    hundredths back as the nearest double; an infinity, a NaN and a zero
    round to themselves. *)
Theorem distance_by_haversine (M : PyMath) (from_city to_city : string)
    (p1 p2 : coords) :
  city_coordinates !! lower from_city = Some p1 ->
  city_coordinates !! lower to_city = Some p2 ->
  haversine_distance (lat p1) (lon p1) (lat p2) (lon p2) = haversine_spec p1 p2
  /\ calculate_distance from_city to_city
     = try_except
         (d ← haversine_spec p1 p2;
          km ← float_round d 2;
          miles ← float_round (d * 0.621371)%float 2;
          Ok (distance_payload from_city to_city km miles))
         distance_handlers
  /\ forall x : float,
       match Prim2SF x with
       | S754_finite s m e =>
           nearest_even (scaled_num m e 2) (scaled_den e) (decimal_digits m e 2)
           /\ float_round x 2
              = match decimal_to_double s (decimal_digits m e 2) 2 with
                | S754_infinity _ =>
                    Raise (OverflowError "rounded value too large to represent")
                | r => Ok (SF2Prim r)
                end
       | _ => float_round x 2 = Ok x
       end.
Proof.
  intros H1 H2. split; [apply haversine_distance_spec|]. split.
  - rewrite calculate_distance_cases, H1, H2.
    unfold found_result. rewrite rounded_distances_spec.
    destruct (haversine_spec p1 p2) as [d|e]; [|reflexivity]. simpl.
    destruct (float_round d 2) as [km|e]; [|reflexivity]. simpl.
    destruct (float_round _ 2) as [miles|e]; reflexivity.
  - intros x. unfold float_round.
    destruct (Prim2SF x) as [s|s| |s m e]; try reflexivity.
    split; [apply decimal_digits_nearest|reflexivity].
Qed.

Lemma distance_by_haversine_witness :
  city_coordinates !! lower "Madrid" = Some (Coords 40.4168 (-3.7038))
  /\ city_coordinates !! lower "Barcelona" = Some (Coords 41.3851 2.1734)
  /\ @calculate_distance small_angle_math "Madrid" "Barcelona"
     = try_except
         (d ← @haversine_spec small_angle_math
                (Coords 40.4168 (-3.7038)) (Coords 41.3851 2.1734);
          km ← float_round d 2;
          miles ← float_round (d * 0.621371)%float 2;
          Ok (distance_payload "Madrid" "Barcelona" km miles))
         distance_handlers.
Proof.
  split; [reflexivity|]. split; [reflexivity|].
  apply (distance_by_haversine small_angle_math "Madrid" "Barcelona"
           (Coords 40.4168 (-3.7038)) (Coords 41.3851 2.1734));
    reflexivity.
Defined.

Section Symmetry.
Context {M : PyMath} {L : SignLaws M}.

Lemma found_result_swap (a b : string) (pa pb : coords) (km miles : float) :
  found_result a b pa pb = Ok (distance_payload a b km miles) ->
  found_result b a pb pa = Ok (distance_payload b a km miles).
Proof.
  intros H%found_result_inv%rounded_distances_swap.
  unfold found_result. rewrite H. reflexivity.
Qed.

Lemma found_result_error_swap (a b : string) (pa pb : coords) :
  (exists msg, found_result a b pa pb = Ok (error_payload msg)) ->
  exists msg, found_result b a pb pa = Ok (error_payload msg).
Proof.
  intros [msg H].
  destruct (found_result_total b a pb pa)
    as [(km & miles & Hr & _)|(e & msg' & _ & Hf)]; [|eauto].
  apply rounded_distances_swap in Hr.
  unfold found_result in H. rewrite Hr in H. apply Ok_inj in H.
  apply distance_payload_not_error in H. contradiction.
Qed.

End Symmetry.

(** C8: with a sine that is odd and a square that does not see the sign,
    for two names found in the gazetteer [calculate_distance a b] returns
    the kilometres and miles [km], [miles] exactly when
    [calculate_distance b a] returns the same two values, and the one fails
    exactly when the other does. *)
Theorem distance_is_symmetric (M : PyMath) (L : SignLaws M) (a b : string)
    (pa pb : coords) :
  city_coordinates !! lower a = Some pa ->
  city_coordinates !! lower b = Some pb ->
  (forall km miles : float,
     calculate_distance a b = Ok (distance_payload a b km miles)
     <-> calculate_distance b a = Ok (distance_payload b a km miles))
  /\ ((exists msg, calculate_distance a b = Ok (error_payload msg))
      <-> (exists msg, calculate_distance b a = Ok (error_payload msg))).
Proof.
  intros Ha Hb. rewrite !calculate_distance_cases, Ha, Hb. split.
  - intros km miles. split; apply found_result_swap.
  - split; apply found_result_error_swap.
Qed.

Lemma distance_is_symmetric_witness :
  city_coordinates !! lower "Tokyo" = Some (Coords 35.6762 139.6503)
  /\ city_coordinates !! lower "Sydney" = Some (Coords 33.8688 151.2093)
  /\ (forall km miles : float,
        @calculate_distance small_angle_math "Tokyo" "Sydney"
        = Ok (distance_payload "Tokyo" "Sydney" km miles)
        <-> @calculate_distance small_angle_math "Sydney" "Tokyo"
            = Ok (distance_payload "Sydney" "Tokyo" km miles)).
Proof.
  split; [reflexivity|]. split; [reflexivity|].
  apply (distance_is_symmetric small_angle_math small_angle_sign_laws
           "Tokyo" "Sydney" (Coords 35.6762 139.6503)
           (Coords 33.8688 151.2093)); reflexivity.
Defined.

(** C9: with a sine, a square and an arcsine that are exact at zero and a
    cosine within [-1, 1], the distance from a city of the gazetteer to
    itself is the success payload with 0.0 kilometres and 0.0 miles. *)
Theorem distance_to_itself_is_zero (M : PyMath) (L : ZeroLaws M) (a : string)
    (p : coords) :
  city_coordinates !! lower a = Some p ->
  calculate_distance a a = Ok (distance_payload a a 0 0).
Proof.
  intros Ha. rewrite calculate_distance_cases, Ha.
  destruct (gazetteer_radians_finite _ _ Ha) as [Hlat Hlon].
  unfold found_result, rounded_distances, haversine_distance.
  rewrite (float_sub_diag _ Hlat), (float_sub_diag _ Hlon).
  change (0 / 2)%float with 0%float.
  rewrite sin_zero. simpl. rewrite pow2_zero. simpl.
  destruct (cos_bounded _ Hlat) as (c & Hc & Hb).
  rewrite Hc. simpl.
  pose proof (float_mul_bounded_finite c c Hb Hb) as Hfin.
  destruct (float_mul_zero_r _ Hfin) as [Hz|Hz]; rewrite Hz.
  - change (math_sqrt (0 + 0)) with (Ok 0%float). simpl.
    rewrite asin_zero. reflexivity.
  - change (math_sqrt (0 + -0)) with (Ok 0%float). simpl.
    rewrite asin_zero. reflexivity.
Qed.

Lemma distance_to_itself_is_zero_witness :
  city_coordinates !! lower "Dubai" = Some (Coords 25.2048 55.2708)
  /\ @calculate_distance small_angle_math "Dubai" "Dubai"
     = Ok (distance_payload "Dubai" "Dubai" 0 0).
Proof.
  split; [reflexivity|].
  apply (distance_to_itself_is_zero small_angle_math small_angle_zero_laws
           "Dubai" (Coords 25.2048 55.2708)); reflexivity.
Defined.

(** ** get_weather *)

Lemma weather_payload_fields (city : string) (t tf c h w pr : value) :
  weather_payload city t tf c h w pr !! "city" = Some (VStr city)
  /\ weather_payload city t tf c h w pr !! "temperature" = Some t
  /\ weather_payload city t tf c h w pr !! "temperature_f" = Some tf
  /\ weather_payload city t tf c h w pr !! "conditions" = Some c
  /\ weather_payload city t tf c h w pr !! "humidity" = Some h
  /\ weather_payload city t tf c h w pr !! "wind_speed" = Some w
  /\ weather_payload city t tf c h w pr !! "pressure" = Some pr
  /\ weather_payload city t tf c h w pr !! "error" = None.
Proof. repeat split; reflexivity. Qed.

(** Splits a hypothesis [r >>= f = _] on the result that is evaluated
    first. *)
Ltac first_result t :=
  lazymatch t with
  | mbind _ ?r => first_result r
  | _ => constr:(t)
  end.

Ltac bind_cases H :=
  lazymatch type of H with
  | mbind _ ?r = _ =>
      let h := first_result r in
      destruct h eqn:?; cbn [mbind result_bind] in H
  end.

Lemma fahrenheit_float (c : float) :
  fahrenheit (VFloat c) = VFloat <$> float_round (c * 9 / 5 + 32)%float 1.
Proof. reflexivity. Qed.

Lemma fahrenheit_int (n : Z) :
  fahrenheit (VInt n)
  = (q ← int_truediv (n * 9) 5; VFloat <$> float_round (q + 32)%float 1).
Proof.
  unfold fahrenheit. cbn [py_mul mbind result_bind py_truediv].
  destruct (int_truediv (n * 9) 5) as [q|e]; reflexivity.
Qed.

Lemma getitem_key_error (v : value) (key k : string) :
  getitem v key = Raise (KeyError k) -> k = repr_str key.
Proof.
  destruct v; simpl; try discriminate.
  destruct (assoc key d); [discriminate|]. congruence.
Qed.

Lemma getitem0_key_error (v : value) (k : string) :
  getitem0 v = Raise (KeyError k) -> k = "0".
Proof.
  destruct v as [| | | |[|c s]|[|x l]|d]; simpl; try discriminate. congruence.
Qed.

Lemma float_round_no_key_error (x : float) (n : nat) (k : string) :
  float_round x n = Raise (KeyError k) -> False.
Proof.
  unfold float_round.
  destruct (Prim2SF x); try discriminate.
  destruct (323 <? n)%nat; [discriminate|].
  destruct (decimal_to_double _ _ _); discriminate.
Qed.

Lemma int_truediv_no_key_error (a b : Z) (k : string) :
  int_truediv a b = Raise (KeyError k) -> False.
Proof.
  unfold int_truediv. destruct (b =? 0)%Z; [discriminate|].
  destruct (SF64div _ _); discriminate.
Qed.

Lemma fahrenheit_no_key_error (t : value) (k : string) :
  fahrenheit t = Raise (KeyError k) -> False.
Proof.
  assert (Hint : forall n, fahrenheit (VInt n) = Raise (KeyError k) -> False).
  { intros n. rewrite fahrenheit_int.
    destruct (int_truediv _ 5) as [q|e] eqn:E; cbn [mbind result_bind].
    - destruct (float_round _ 1) eqn:E2; [discriminate|].
      intros H. cbn in H. injection H as ->.
      eapply float_round_no_key_error, E2.
    - intros H. injection H as ->. eapply int_truediv_no_key_error, E. }
  destruct t as [|b|n|c|s|l|d]; try discriminate.
  - apply (Hint (Z.b2z b)).
  - apply Hint.
  - rewrite fahrenheit_float.
    destruct (float_round _ 1) eqn:E2; [discriminate|].
    intros H. cbn in H. injection H as ->.
    eapply float_round_no_key_error, E2.
Qed.

Lemma weather_data_unfold (city : string) (data : value) :
  weather_data city data
  = (temperature ← getitem data "main" ≫= fun m => getitem m "temp";
     temperature_f ←
       (getitem data "main" ≫= fun m => getitem m "temp") ≫= fahrenheit;
     conditions ←
       (w ← getitem data "weather"; w0 ← getitem0 w; getitem w0 "description");
     humidity ← getitem data "main" ≫= fun m => getitem m "humidity";
     wind_speed ← getitem data "wind" ≫= fun m => getitem m "speed";
     pressure ← getitem data "main" ≫= fun m => getitem m "pressure";
     Ok (weather_payload city temperature temperature_f conditions humidity
           wind_speed pressure)).
Proof. reflexivity. Qed.

Lemma weather_data_key_error (city : string) (data : value) (k : string) :
  weather_data city data = Raise (KeyError k) ->
  In k ("0" :: map repr_str weather_keys).
Proof.
  rewrite weather_data_unfold. intros H.
  repeat (bind_cases H;
          [|injection H as ->;
            first [ match goal with
                    | E : getitem _ _ = Raise (KeyError _) |- _ =>
                        apply getitem_key_error in E; subst k; simpl; auto 20
                    end
                  | match goal with
                    | E : getitem0 _ = Raise (KeyError _) |- _ =>
                        apply getitem0_key_error in E; subst k; simpl; auto
                    end
                  | match goal with
                    | E : fahrenheit _ = Raise (KeyError _) |- _ =>
                        apply fahrenheit_no_key_error in E; contradiction
                    end ]]).
  discriminate.
Qed.

Section WeatherFacts.
Context (environ : gmap string string).
Context (requests_get : string -> result response).

Lemma weather_data_shape (city : string) (data : value) (p : payload) :
  weather_data city data = Ok p ->
  exists t tf c h w pr, p = weather_payload city t tf c h w pr.
Proof.
  unfold weather_data. intros H.
  repeat (bind_cases H; [|discriminate]).
  apply Ok_inj in H. subst p. eauto 10.
Qed.

Lemma get_weather_total (city : string) :
  exists p, get_weather environ requests_get city = Ok p
    /\ ((exists msg, p = error_payload msg)
        \/ exists t tf c h w pr, p = weather_payload city t tf c h w pr).
Proof.
  unfold get_weather, try_except.
  destruct (get_weather_body environ requests_get city) as [p|e] eqn:Hb.
  - exists p. split; [reflexivity|].
    unfold get_weather_body in Hb.
    destruct (requests_get _) as [r|e]; [|discriminate].
    cbn [mbind result_bind] in Hb.
    destruct (status_code r =? 200)%Z.
    + destruct (json r) as [data|e]; [|discriminate].
      cbn [mbind result_bind] in Hb.
      right. exact (weather_data_shape _ _ _ Hb).
    + apply Ok_inj in Hb. subst p. left. eauto.
  - destruct (handle_weather e) as [msg Hm].
    exists (error_payload msg). split; [exact Hm|left; eauto].
Qed.

End WeatherFacts.

Section WeatherBody.
Context (environ : gmap string string).
Context (requests_get : string -> result response).

Lemma get_weather_raised (city : string) (e : exn) :
  get_weather_body environ requests_get city = Raise e ->
  get_weather environ requests_get city = handle weather_handlers e.
Proof. unfold get_weather, try_except. intros ->. reflexivity. Qed.

Lemma get_weather_body_ok (city : string) (r : response) (data : value) :
  requests_get (weather_url environ city) = Ok r ->
  (status_code r =? 200)%Z = true ->
  json r = Ok data ->
  get_weather_body environ requests_get city = weather_data city data.
Proof.
  intros Hr Hs Hj. unfold get_weather_body. rewrite Hr. cbn [mbind result_bind].
  rewrite Hs, Hj. reflexivity.
Qed.

End WeatherBody.

(** Rewrites the subscripts of [weather_data] with what is known of the
    body. *)
Ltac read_body :=
  repeat (cbn [getitem getitem0 mbind result_bind];
          match goal with
          | H : assoc _ _ = _ |- _ => rewrite H
          | H : fahrenheit _ = _ |- _ => rewrite H
          end);
  cbn [getitem getitem0 mbind result_bind].

(** C5: [get_weather] tells its failures apart by the text of the message.
    A status other than 200 gives ["API Error: <status> - <body>"].  A
    [RequestException] of the transport gives ["Network error: <cause>"],
    which is no parsing message.  A subscript that misses a key of a 200
    response gives ["Could not parse weather data: <key>"], the key being
    one the code asks for (or the index 0): so it is for each of ["main"],
    ["temp"], ["weather"], ["description"], ["humidity"], ["wind"],
    ["speed"] and ["pressure"], the first one missing in the order the code
    reads them being the one named.  Any other exception gives its own
    description. *)
Theorem weather_failures_are_classified (environ : gmap string string)
    (requests_get : string -> result response) (city : string) :
  (forall r : response,
     requests_get (weather_url environ city) = Ok r ->
     (status_code r =? 200)%Z = false ->
     get_weather environ requests_get city
     = Ok (error_payload ("API Error: " +:+ pretty (status_code r) +:+ " - "
                          +:+ text r)))
  /\ (forall msg : string,
        requests_get (weather_url environ city) = Raise (RequestException msg) ->
        get_weather environ requests_get city
        = Ok (error_payload ("Network error: " +:+ msg))
        /\ forall k : string,
             error_payload ("Network error: " +:+ msg)
             <> error_payload ("Could not parse weather data: " +:+ k))
  /\ (forall (r : response) (data : value) (k : string),
        requests_get (weather_url environ city) = Ok r ->
        (status_code r =? 200)%Z = true ->
        json r = Ok data ->
        weather_data city data = Raise (KeyError k) ->
        get_weather environ requests_get city
        = Ok (error_payload ("Could not parse weather data: " +:+ k))
        /\ In k ("0" :: map repr_str weather_keys))
  /\ (forall (r : response) (d : list (string * value)),
        requests_get (weather_url environ city) = Ok r ->
        (status_code r =? 200)%Z = true ->
        json r = Ok (VDict d) ->
        assoc "main" d = None ->
        get_weather environ requests_get city
        = Ok (error_payload "Could not parse weather data: 'main'"))
  /\ (forall e : exn,
        get_weather_body environ requests_get city = Raise e ->
        isinstance e CRequestException = false ->
        isinstance e CKeyError = false ->
        get_weather environ requests_get city = Ok (error_payload (exn_str e)))
  /\ (forall (r : response) (d : list (string * value)),
        requests_get (weather_url environ city) = Ok r ->
        (status_code r =? 200)%Z = true ->
        json r = Ok (VDict d) ->
        (assoc "main" d = None ->
         get_weather environ requests_get city
         = Ok (error_payload "Could not parse weather data: 'main'"))
        /\ forall dm : list (string * value),
          assoc "main" d = Some (VDict dm) ->
          (assoc "temp" dm = None ->
           get_weather environ requests_get city
           = Ok (error_payload "Could not parse weather data: 'temp'"))
          /\ forall t tf : value,
            assoc "temp" dm = Some t ->
            fahrenheit t = Ok tf ->
            (assoc "weather" d = None ->
             get_weather environ requests_get city
             = Ok (error_payload "Could not parse weather data: 'weather'"))
            /\ forall (d0 : list (string * value)) (rest : list value),
              assoc "weather" d = Some (VList (VDict d0 :: rest)) ->
              (assoc "description" d0 = None ->
               get_weather environ requests_get city
               = Ok (error_payload
                       "Could not parse weather data: 'description'"))
              /\ forall desc : value,
                assoc "description" d0 = Some desc ->
                (assoc "humidity" dm = None ->
                 get_weather environ requests_get city
                 = Ok (error_payload
                         "Could not parse weather data: 'humidity'"))
                /\ forall h : value,
                  assoc "humidity" dm = Some h ->
                  (assoc "wind" d = None ->
                   get_weather environ requests_get city
                   = Ok (error_payload
                           "Could not parse weather data: 'wind'"))
                  /\ forall dw : list (string * value),
                    assoc "wind" d = Some (VDict dw) ->
                    (assoc "speed" dw = None ->
                     get_weather environ requests_get city
                     = Ok (error_payload
                             "Could not parse weather data: 'speed'"))
                    /\ forall ws : value,
                      assoc "speed" dw = Some ws ->
                      assoc "pressure" dm = None ->
                      get_weather environ requests_get city
                      = Ok (error_payload
                              "Could not parse weather data: 'pressure'")).
Proof.
  split; [|split; [|split; [|split; [|split]]]].
  - intros r Hr Hs. unfold get_weather, get_weather_body.
    rewrite Hr. cbn [mbind result_bind]. rewrite Hs. reflexivity.
  - intros msg Hr. split.
    + unfold get_weather, get_weather_body. rewrite Hr. reflexivity.
    + intros k H.
      apply (f_equal (fun p : payload => p !! "error")) in H.
      rewrite !error_payload_field in H. discriminate.
  - intros r data k Hr Hs Hj Hk. split.
    + rewrite (get_weather_raised _ _ city (KeyError k)); [reflexivity|].
      rewrite (get_weather_body_ok _ _ city r data Hr Hs Hj). exact Hk.
    + exact (weather_data_key_error _ _ _ Hk).
  - intros r d Hr Hs Hj Hm.
    rewrite (get_weather_raised _ _ city (KeyError (repr_str "main")));
      [reflexivity|].
    rewrite (get_weather_body_ok _ _ city r (VDict d) Hr Hs Hj).
    unfold weather_data. cbn [getitem]. rewrite Hm. reflexivity.
  - intros e Hb Hreq Hkey. rewrite (get_weather_raised _ _ city e Hb).
    destruct e; try discriminate; reflexivity.
  - intros r d Hr Hs Hj.
    assert (Hnamed : forall k : string,
              weather_data city (VDict d) = Raise (KeyError (repr_str k)) ->
              get_weather environ requests_get city
              = Ok (error_payload
                      ("Could not parse weather data: " +:+ repr_str k))).
    { intros k Hk.
      rewrite (get_weather_raised _ _ city (KeyError (repr_str k)));
        [reflexivity|].
      rewrite (get_weather_body_ok _ _ city r (VDict d) Hr Hs Hj). exact Hk. }
    split.
    { intros Hmain. apply (Hnamed "main").
      rewrite weather_data_unfold. read_body. reflexivity. }
    intros dm Hmain. split.
    { intros Htemp. apply (Hnamed "temp").
      rewrite weather_data_unfold. read_body. reflexivity. }
    intros t tf Htemp Hf. split.
    { intros Hw. apply (Hnamed "weather").
      rewrite weather_data_unfold. read_body. reflexivity. }
    intros d0 rest Hw. split.
    { intros Hdesc. apply (Hnamed "description").
      rewrite weather_data_unfold. read_body. reflexivity. }
    intros desc Hdesc. split.
    { intros Hhum. apply (Hnamed "humidity").
      rewrite weather_data_unfold. read_body. reflexivity. }
    intros h Hhum. split.
    { intros Hwind. apply (Hnamed "wind").
      rewrite weather_data_unfold. read_body. reflexivity. }
    intros dw Hwind. split.
    { intros Hspeed. apply (Hnamed "speed").
      rewrite weather_data_unfold. read_body. reflexivity. }
    intros ws Hspeed Hpr. apply (Hnamed "pressure").
    rewrite weather_data_unfold. read_body. reflexivity.
Qed.

(** C6: on a 200 response whose body is an object with ["main"] (holding
    ["temp"], ["humidity"], ["pressure"]), a non-empty ["weather"] list
    whose first element holds ["description"], and ["wind"] holding
    ["speed"], and whose temperature converts, [get_weather] returns the
    success payload: the temperature as it came, [temperature_f] the value
    of [round(temp * 9/5 + 32, 1)] (for a float temperature, that one
    rounding of the float expression), the first description, the
    humidity, the wind speed and the pressure; it has no ["error"]. *)
Theorem weather_success_payload (environ : gmap string string)
    (requests_get : string -> result response) (city : string)
    (r : response) (d dm d0 dw : list (string * value)) (rest : list value)
    (t tf desc h ws pr : value) :
  requests_get (weather_url environ city) = Ok r ->
  status_code r = 200%Z ->
  json r = Ok (VDict d) ->
  assoc "main" d = Some (VDict dm) ->
  assoc "temp" dm = Some t ->
  assoc "humidity" dm = Some h ->
  assoc "pressure" dm = Some pr ->
  assoc "weather" d = Some (VList (VDict d0 :: rest)) ->
  assoc "description" d0 = Some desc ->
  assoc "wind" d = Some (VDict dw) ->
  assoc "speed" dw = Some ws ->
  fahrenheit t = Ok tf ->
  get_weather environ requests_get city
  = Ok (weather_payload city t tf desc h ws pr)
  /\ weather_payload city t tf desc h ws pr !! "temperature" = Some t
  /\ weather_payload city t tf desc h ws pr !! "temperature_f" = Some tf
  /\ weather_payload city t tf desc h ws pr !! "conditions" = Some desc
  /\ weather_payload city t tf desc h ws pr !! "humidity" = Some h
  /\ weather_payload city t tf desc h ws pr !! "wind_speed" = Some ws
  /\ weather_payload city t tf desc h ws pr !! "pressure" = Some pr
  /\ weather_payload city t tf desc h ws pr !! "error" = None
  /\ (forall c : float, t = VFloat c ->
        Ok tf = VFloat <$> float_round (c * 9 / 5 + 32)%float 1).
Proof.
  intros Hr Hs Hj Hmain Htemp Hhum Hpr Hw Hdesc Hwind Hspeed Hf.
  split.
  - unfold get_weather.
    rewrite (get_weather_body_ok _ _ city r (VDict d) Hr); [|lia|exact Hj].
    rewrite weather_data_unfold. cbn [getitem mbind result_bind].
    rewrite Hmain, Hw, Hwind. cbn [getitem getitem0 mbind result_bind].
    rewrite Htemp, Hhum, Hpr, Hdesc, Hspeed. cbn [mbind result_bind].
    rewrite Hf. reflexivity.
  - pose proof (weather_payload_fields city t tf desc h ws pr)
      as (_ & H1 & H2 & H3 & H4 & H5 & H6 & H7).
    repeat (split; [assumption|]).
    intros c ->. rewrite <- Hf. apply fahrenheit_float.
Qed.

Lemma weather_success_payload_witness :
  get_weather ∅ (fun _ => Ok london_response) "London"
  = Ok (weather_payload "London" (VFloat 21.5) (VFloat 70.7)
          (VStr "clear sky") (VInt 40) (VFloat 3.6) (VInt 1013)).
Proof.
  apply (weather_success_payload ∅ (fun _ => Ok london_response) "London"
           london_response london_body london_main
           [("description", VStr "clear sky")] [("speed", VFloat 3.6)] []);
    reflexivity.
Defined.

(** C1: for every input and whatever the network does, both tools return
    a dictionary and raise nothing: an error payload, which is the single
    field ["error"], or a success payload, which has no ["error"] field. *)
Theorem tools_always_return_a_payload (M : PyMath)
    (environ : gmap string string)
    (requests_get : string -> result response)
    (from_city to_city city : string) :
  (exists p : payload,
     calculate_distance from_city to_city = Ok p
     /\ ((exists msg, p = error_payload msg)
         \/ exists km miles, p = distance_payload from_city to_city km miles))
  /\ (exists p : payload,
        get_weather environ requests_get city = Ok p
        /\ ((exists msg, p = error_payload msg)
            \/ exists t tf c h w pr, p = weather_payload city t tf c h w pr))
  /\ (forall msg : string, error_payload msg !! "error" = Some (VStr msg))
  /\ (forall (f t : string) (km miles : float),
        distance_payload f t km miles !! "error" = None)
  /\ (forall (c : string) (t tf cd h w pr : value),
        weather_payload c t tf cd h w pr !! "error" = None).
Proof.
  split; [|split; [|split; [|split]]].
  - rewrite calculate_distance_cases.
    destruct (city_coordinates !! lower from_city) as [p1|];
      [|exists (not_found from_city); split; [reflexivity|left];
        unfold not_found; eauto].
    destruct (city_coordinates !! lower to_city) as [p2|];
      [|exists (not_found to_city); split; [reflexivity|left];
        unfold not_found; eauto].
    destruct (found_result_total from_city to_city p1 p2)
      as [(km & miles & _ & Hf)|(e & msg & _ & Hf)]; rewrite Hf; eauto 10.
  - apply get_weather_total.
  - apply error_payload_field.
  - intros f t km miles. apply distance_payload_fields.
  - intros c t tf cd h w pr. apply weather_payload_fields.
Qed.

(** ** Values computed by the model *)

(** Ties and near-ties of [round]: 0.125 is exact and goes to the even
    0.12; 2.675 is the double just below and goes down; the sign of a
    negative that rounds to zero stays. *)
Example float_round_examples :
  float_round 0.125 2 = Ok 0.12%float
  /\ float_round 0.375 2 = Ok 0.38%float
  /\ float_round 2.675 2 = Ok 2.67%float
  /\ float_round (-0.001) 2 = Ok (-0)%float
  /\ float_round 70.70000000000002 1 = Ok 70.7%float
  /\ float_round infinity 2 = Ok infinity.
Proof. repeat split; vm_compute; reflexivity. Qed.

Example int_truediv_examples :
  int_truediv 189 5 = Ok 37.8%float
  /\ int_truediv 0 (-5) = Ok (-0)%float
  /\ int_truediv (10 ^ 400) 5
     = Raise (OverflowError "integer division result too large for a float").
Proof. repeat split; vm_compute; reflexivity. Qed.

Example fahrenheit_examples :
  fahrenheit (VFloat 21.5) = Ok (VFloat 70.7)
  /\ fahrenheit (VInt 21) = Ok (VFloat 69.8)
  /\ fahrenheit (VBool true) = Ok (VFloat 33.8)
  /\ fahrenheit (VStr "21")
     = Raise (TypeError "unsupported operand type(s) for /: 'str' and 'int'")
  /\ fahrenheit VNone
     = Raise (TypeError "unsupported operand type(s) for *: 'NoneType' and 'int'").
Proof. repeat split; vm_compute; reflexivity. Qed.

Example lower_examples :
  lower "MADRID" = "madrid"
  /\ lower "New York" = "new york"
  /\ lower " madrid" = " madrid"
  /\ strip "  Madrid  " = "Madrid".
Proof. repeat split; reflexivity. Qed.

(** A field that is present with the wrong shape is no missing key: an
    empty ["weather"] list ends in the last handler. *)
Example empty_weather_list_is_generic :
  get_weather ∅
    (fun _ =>
       Ok (Response 200 "{...}"
             (Ok (VDict [("main", VDict london_main); ("weather", VList [])]))))
    "London"
  = Ok (error_payload "list index out of range").
Proof. reflexivity. Qed.

Example transport_failure_example :
  get_weather ∅ (fun _ => Raise (RequestException "timed out")) "London"
  = Ok (error_payload "Network error: timed out").
Proof. reflexivity. Qed.

Example api_error_example :
  get_weather ∅ (fun _ => Ok (Response 404 "city not found" (Ok VNone)))
    "Nowhereville"
  = Ok (error_payload "API Error: 404 - city not found").
Proof. reflexivity. Qed.

(** * Further facts on the program *)

(** ** haversine_distance on any two points *)

(** X1: with a sine that is odd and a square that does not see the sign,
    [haversine_distance] returns the same distance with its two points
    exchanged, whatever the four numbers are. *)
Theorem haversine_distance_swap (M : PyMath) (L : SignLaws M)
    (lat1 lon1 lat2 lon2 d : float) :
  haversine_distance lat1 lon1 lat2 lon2 = Ok d
  <-> haversine_distance lat2 lon2 lat1 lon1 = Ok d.
Proof.
  rewrite (haversine_distance_spec (Coords lat1 lon1) (Coords lat2 lon2)).
  rewrite (haversine_distance_spec (Coords lat2 lon2) (Coords lat1 lon1)).
  split; apply haversine_spec_swap.
Qed.

Lemma haversine_distance_swap_witness :
  @haversine_distance small_angle_math 10 20 30 40 = Ok 3145.0674665563274%float
  <-> @haversine_distance small_angle_math 30 40 10 20
      = Ok 3145.0674665563274%float.
Proof.
  apply (haversine_distance_swap small_angle_math small_angle_sign_laws).
Defined.

(** X2: with a sine, a square and an arcsine exact at zero and a cosine
    within [-1, 1], the distance from a point to itself is [+0.0] as soon as
    its two coordinates are finite in radians. *)
Theorem haversine_distance_same_point (M : PyMath) (L : ZeroLaws M)
    (la lo : float) :
  is_finite (radians la) = true ->
  is_finite (radians lo) = true ->
  haversine_distance la lo la lo = Ok 0%float.
Proof.
  intros Hlat Hlon. unfold haversine_distance.
  rewrite (float_sub_diag _ Hlat), (float_sub_diag _ Hlon).
  change (0 / 2)%float with 0%float.
  rewrite sin_zero. simpl. rewrite pow2_zero. simpl.
  destruct (cos_bounded _ Hlat) as (c & Hc & Hb).
  rewrite Hc. simpl.
  pose proof (float_mul_bounded_finite c c Hb Hb) as Hfin.
  destruct (float_mul_zero_r _ Hfin) as [Hz|Hz]; rewrite Hz.
  - change (math_sqrt (0 + 0)) with (Ok 0%float). simpl.
    rewrite asin_zero. reflexivity.
  - change (math_sqrt (0 + -0)) with (Ok 0%float). simpl.
    rewrite asin_zero. reflexivity.
Qed.

Lemma haversine_distance_same_point_witness :
  is_finite (radians 89.5) = true
  /\ is_finite (radians (-179.25)) = true
  /\ @haversine_distance small_angle_math 89.5 (-179.25) 89.5 (-179.25)
     = Ok 0%float.
Proof.
  split; [reflexivity|]. split; [reflexivity|].
  apply (haversine_distance_same_point small_angle_math small_angle_zero_laws);
    reflexivity.
Defined.

(** ** calculate_distance: where an exception can come from *)

Lemma calculate_distance_try (M : PyMath) (from_city to_city : string) :
  calculate_distance from_city to_city
  = try_except (calculate_distance_body from_city to_city) distance_handlers.
Proof. reflexivity. Qed.

Lemma calculate_distance_body_found (M : PyMath) (from_city to_city : string)
    (p1 p2 : coords) :
  city_coordinates !! lower from_city = Some p1 ->
  city_coordinates !! lower to_city = Some p2 ->
  calculate_distance_body from_city to_city
  = (r ← rounded_distances p1 p2;
     Ok (distance_payload from_city to_city r.1 r.2)).
Proof.
  intros H1 H2.
  unfold calculate_distance_body, dict_contains, dict_getitem,
    rounded_distances.
  rewrite H1, H2. cbn [negb mbind result_bind].
  destruct (haversine_distance _ _ _ _) as [d|e]; [|reflexivity].
  cbn [mbind result_bind].
  destruct (float_round d 2) as [km|e]; [|reflexivity].
  cbn [mbind result_bind].
  destruct (float_round _ 2) as [miles|e]; reflexivity.
Qed.

(** X3: the two subscripts of the gazetteer never raise: the body of
    [calculate_distance] raises an exception exactly when both names are
    found and the arithmetic on their coordinates raises it. *)
Theorem distance_exception_is_arithmetic (M : PyMath)
    (from_city to_city : string) (e : exn) :
  calculate_distance_body from_city to_city = Raise e
  <-> exists p1 p2 : coords,
        city_coordinates !! lower from_city = Some p1
        /\ city_coordinates !! lower to_city = Some p2
        /\ rounded_distances p1 p2 = Raise e.
Proof.
  split.
  - intros H.
    destruct (city_coordinates !! lower from_city) as [p1|] eqn:H1;
      [|unfold calculate_distance_body, dict_contains in H;
        rewrite H1 in H; discriminate].
    destruct (city_coordinates !! lower to_city) as [p2|] eqn:H2;
      [|unfold calculate_distance_body, dict_contains in H;
        rewrite H1, H2 in H; discriminate].
    exists p1, p2. split; [reflexivity|]. split; [reflexivity|].
    rewrite (calculate_distance_body_found M _ _ p1 p2 H1 H2) in H.
    destruct (rounded_distances p1 p2) as [r|e0]; [discriminate|].
    cbn [mbind result_bind] in H. injection H as ->. reflexivity.
  - intros (p1 & p2 & H1 & H2 & H).
    rewrite (calculate_distance_body_found M _ _ p1 p2 H1 H2), H.
    reflexivity.
Qed.

Example far_cities_fail_the_checked_arcsine :
  @calculate_distance_body checked_small_angle_math "Tokyo" "New York"
  = Raise (ValueError "math domain error")
  /\ @calculate_distance checked_small_angle_math "Tokyo" "New York"
     = Ok (error_payload "math domain error").
Proof. split; vm_compute; reflexivity. Qed.

(** ** get_weather: what it asks and what it needs *)

(** X4: the result of [get_weather] depends on the environment through
    [OPENWEATHER_API_KEY] only and on the network through its answer to the
    one URL built from the city and the key: two environments that agree on
    that variable and two networks that answer that URL alike give the same
    result. *)
Theorem get_weather_depends_on_one_answer (environ environ' : gmap string string)
    (requests_get requests_get' : string -> result response) (city : string) :
  environ !! "OPENWEATHER_API_KEY" = environ' !! "OPENWEATHER_API_KEY" ->
  requests_get (weather_url environ city)
  = requests_get' (weather_url environ city) ->
  get_weather environ requests_get city
  = get_weather environ' requests_get' city.
Proof.
  intros Hkey Hget.
  assert (Hurl : weather_url environ' city = weather_url environ city)
    by (unfold weather_url; rewrite Hkey; reflexivity).
  unfold get_weather, get_weather_body. rewrite Hurl, Hget. reflexivity.
Qed.

Lemma get_weather_depends_on_one_answer_witness :
  get_weather ∅ (fun _ => Ok london_response) "London"
  = get_weather {[ "HOME" := "/root" ]}
      (fun url =>
         if String.eqb url (weather_url ∅ "London") then Ok london_response
         else Raise (RequestException "unreachable"))
      "London".
Proof.
  apply (get_weather_depends_on_one_answer ∅ {[ "HOME" := "/root" ]}); reflexivity.
Defined.

(** X5: a 200 response whose body does not decode is reported by the class
    of the exception [response.json()] raises: as a network error when it is
    a [RequestException], by its bare description when it is a
    [ValueError]; in neither case as a parsing error. *)
Theorem undecodable_body_is_classified_by_class
    (environ : gmap string string)
    (requests_get : string -> result response) (city : string)
    (r : response) (msg : string) :
  requests_get (weather_url environ city) = Ok r ->
  status_code r = 200%Z ->
  (json r = Raise (RequestException msg) ->
   get_weather environ requests_get city
   = Ok (error_payload ("Network error: " +:+ msg)))
  /\ (json r = Raise (ValueError msg) ->
      get_weather environ requests_get city = Ok (error_payload msg)).
Proof.
  intros Hr Hs.
  split; intros Hj; unfold get_weather, get_weather_body;
    rewrite Hr; cbn [mbind result_bind]; rewrite Hs, Hj; reflexivity.
Qed.

Lemma undecodable_body_is_classified_by_class_witness :
  get_weather ∅
    (fun _ => Ok (Response 200 "<html>"
                    (Raise (RequestException "Expecting value: line 1"))))
    "London"
  = Ok (error_payload "Network error: Expecting value: line 1").
Proof.
  apply (undecodable_body_is_classified_by_class ∅ _ "London"
           (Response 200 "<html>"
              (Raise (RequestException "Expecting value: line 1")))
           "Expecting value: line 1"); reflexivity.
Defined.

Lemma getitem_ok_dict (v : value) (k : string) (x : value) :
  getitem v k = Ok x -> exists d, v = VDict d /\ assoc k d = Some x.
Proof.
  destruct v as [| | | | | |d]; try discriminate. cbn [getitem].
  destruct (assoc k d) as [y|] eqn:E; [|discriminate].
  intros H. injection H as ->. exists d. split; [reflexivity|exact E].
Qed.

Lemma getitem0_ok_cases (v x : value) :
  getitem0 v = Ok x ->
  (exists rest, v = VList (x :: rest)) \/ (exists s, x = VStr s).
Proof.
  destruct v as [| | | |[|c s]|[|y l]|d]; try discriminate; cbn [getitem0];
    intros H; injection H as <-; eauto.
Qed.

Lemma fahrenheit_ok_float (t tf : value) :
  fahrenheit t = Ok tf -> non_numeric t = false /\ exists c, tf = VFloat c.
Proof.
  assert (Hint : forall n, fahrenheit (VInt n) = Ok tf -> exists c, tf = VFloat c).
  { intros n. rewrite fahrenheit_int.
    destruct (int_truediv _ 5) as [q|e]; [|discriminate].
    cbn [mbind result_bind].
    destruct (float_round _ 1) as [c|e]; [|discriminate].
    intros H. cbn in H. injection H as <-. eauto. }
  destruct t as [|b|n|c|s|l|d]; try discriminate; intros H;
    (split; [reflexivity|]).
  - apply (Hint (Z.b2z b)). exact H.
  - apply (Hint n). exact H.
  - rewrite fahrenheit_float in H.
    destruct (float_round _ 1) as [c'|e]; [|discriminate].
    cbn in H. injection H as <-. eauto.
Qed.

Lemma fahrenheit_non_numeric (t : value) :
  non_numeric t = true -> exists msg, fahrenheit t = Raise (TypeError msg).
Proof.
  destruct t; try discriminate; intros _; eexists; reflexivity.
Qed.

(** X6: [get_weather] returns a payload without an ["error"] field only
    from a 200 response whose body is an object with ["main"] holding
    ["temp"], ["humidity"] and ["pressure"], a non-empty ["weather"] list
    whose first element holds ["description"], and ["wind"] holding
    ["speed"], with a numeric temperature; the payload is then made of
    those values, and its [temperature_f] is a float. *)
Theorem weather_success_needs_every_field (environ : gmap string string)
    (requests_get : string -> result response) (city : string) (p : payload) :
  get_weather environ requests_get city = Ok p ->
  p !! "error" = None ->
  exists (r : response) (d dm d0 dw : list (string * value))
         (rest : list value) (t desc h ws pr : value) (c : float),
    requests_get (weather_url environ city) = Ok r
    /\ status_code r = 200%Z
    /\ json r = Ok (VDict d)
    /\ assoc "main" d = Some (VDict dm)
    /\ assoc "temp" dm = Some t
    /\ assoc "humidity" dm = Some h
    /\ assoc "pressure" dm = Some pr
    /\ assoc "weather" d = Some (VList (VDict d0 :: rest))
    /\ assoc "description" d0 = Some desc
    /\ assoc "wind" d = Some (VDict dw)
    /\ assoc "speed" dw = Some ws
    /\ non_numeric t = false
    /\ fahrenheit t = Ok (VFloat c)
    /\ p = weather_payload city t (VFloat c) desc h ws pr.
Proof.
  intros Hg Hne.
  unfold get_weather, try_except in Hg.
  destruct (get_weather_body environ requests_get city) as [p0|e] eqn:Hb.
  2: { destruct (handle_weather e) as [msg Hm]. rewrite Hm in Hg.
       apply Ok_inj in Hg. subst p.
       rewrite error_payload_field in Hne. discriminate. }
  apply Ok_inj in Hg. subst p0.
  unfold get_weather_body in Hb.
  destruct (requests_get (weather_url environ city)) as [r|e]; [|discriminate].
  cbn [mbind result_bind] in Hb.
  destruct (status_code r =? 200)%Z eqn:Hs.
  2: { apply Ok_inj in Hb. subst p.
       rewrite error_payload_field in Hne. discriminate. }
  apply Z.eqb_eq in Hs.
  destruct (json r) as [data|e] eqn:Hj; [|discriminate].
  cbn [mbind result_bind] in Hb. rewrite weather_data_unfold in Hb.
  destruct (getitem data "main") as [m|e] eqn:Hmain; [|discriminate].
  cbn [mbind result_bind] in Hb.
  destruct (getitem m "temp") as [t|e] eqn:Htemp; [|discriminate].
  cbn [mbind result_bind] in Hb.
  destruct (fahrenheit t) as [tf|e] eqn:Hf; [|discriminate].
  cbn [mbind result_bind] in Hb.
  destruct (getitem data "weather") as [w|e] eqn:Hw; [|discriminate].
  cbn [mbind result_bind] in Hb.
  destruct (getitem0 w) as [w0|e] eqn:Hw0; [|discriminate].
  cbn [mbind result_bind] in Hb.
  destruct (getitem w0 "description") as [desc|e] eqn:Hdesc; [|discriminate].
  cbn [mbind result_bind] in Hb.
  destruct (getitem m "humidity") as [h|e] eqn:Hhum; [|discriminate].
  cbn [mbind result_bind] in Hb.
  destruct (getitem data "wind") as [wd|e] eqn:Hwind; [|discriminate].
  cbn [mbind result_bind] in Hb.
  destruct (getitem wd "speed") as [ws|e] eqn:Hspeed; [|discriminate].
  cbn [mbind result_bind] in Hb.
  destruct (getitem m "pressure") as [pr|e] eqn:Hpr; [|discriminate].
  cbn [mbind result_bind] in Hb. apply Ok_inj in Hb. subst p.
  apply getitem_ok_dict in Hmain as (d & -> & Hmain).
  apply getitem_ok_dict in Htemp as (dm & -> & Htemp).
  apply getitem_ok_dict in Hhum as (dm' & Heq & Hhum).
  injection Heq as <-.
  apply getitem_ok_dict in Hpr as (dm' & Heq & Hpr).
  injection Heq as <-.
  apply getitem_ok_dict in Hw as (d' & Heq & Hw). injection Heq as <-.
  apply getitem_ok_dict in Hwind as (d' & Heq & Hwind). injection Heq as <-.
  apply getitem_ok_dict in Hspeed as (dw & -> & Hspeed).
  apply getitem_ok_dict in Hdesc as (d0 & -> & Hdesc).
  apply getitem0_ok_cases in Hw0 as [[rest ->]|[s Hs0]]; [|discriminate].
  apply fahrenheit_ok_float in Hf as Hnum. destruct Hnum as [Hnum [c ->]].
  exists r, d, dm, d0, dw, rest, t, desc, h, ws, pr, c.
  repeat (split; [assumption || reflexivity|]). reflexivity.
Qed.

Lemma weather_success_needs_every_field_witness :
  exists (r : response) (d dm d0 dw : list (string * value))
         (rest : list value) (t desc h ws pr : value) (c : float),
    (fun _ : string => Ok london_response) (weather_url ∅ "London") = Ok r
    /\ status_code r = 200%Z
    /\ json r = Ok (VDict d)
    /\ assoc "main" d = Some (VDict dm)
    /\ assoc "temp" dm = Some t
    /\ assoc "humidity" dm = Some h
    /\ assoc "pressure" dm = Some pr
    /\ assoc "weather" d = Some (VList (VDict d0 :: rest))
    /\ assoc "description" d0 = Some desc
    /\ assoc "wind" d = Some (VDict dw)
    /\ assoc "speed" dw = Some ws
    /\ non_numeric t = false
    /\ fahrenheit t = Ok (VFloat c)
    /\ weather_payload "London" (VFloat 21.5) (VFloat 70.7)
         (VStr "clear sky") (VInt 40) (VFloat 3.6) (VInt 1013)
       = weather_payload "London" t (VFloat c) desc h ws pr.
Proof.
  apply (weather_success_needs_every_field ∅
           (fun _ => Ok london_response) "London"); reflexivity.
Defined.

(** X7: when the body has ["main"] with a ["temp"] that is no number
    ([None], a [str], a [list] or a [dict]), the conversion to Fahrenheit
    raises a [TypeError] and [get_weather] returns its message as the
    error, whatever else the body holds. *)
Theorem non_numeric_temperature_is_a_type_error
    (environ : gmap string string)
    (requests_get : string -> result response) (city : string)
    (r : response) (d dm : list (string * value)) (t : value) :
  requests_get (weather_url environ city) = Ok r ->
  status_code r = 200%Z ->
  json r = Ok (VDict d) ->
  assoc "main" d = Some (VDict dm) ->
  assoc "temp" dm = Some t ->
  non_numeric t = true ->
  exists msg : string,
    fahrenheit t = Raise (TypeError msg)
    /\ get_weather environ requests_get city = Ok (error_payload msg).
Proof.
  intros Hr Hs Hj Hmain Htemp Hnn.
  destruct (fahrenheit_non_numeric t Hnn) as [msg Hf].
  exists msg. split; [exact Hf|].
  rewrite (get_weather_raised _ _ city (TypeError msg)); [reflexivity|].
  rewrite (get_weather_body_ok _ _ city r (VDict d) Hr); [|lia|exact Hj].
  rewrite weather_data_unfold. cbn [getitem mbind result_bind].
  rewrite Hmain. cbn [getitem mbind result_bind].
  rewrite Htemp. cbn [mbind result_bind]. rewrite Hf. reflexivity.
Qed.

Lemma non_numeric_temperature_is_a_type_error_witness :
  exists msg : string,
    fahrenheit (VStr "21.5") = Raise (TypeError msg)
    /\ get_weather ∅
         (fun _ => Ok (Response 200 "{...}"
                         (Ok (VDict [("main", VDict [("temp", VStr "21.5")])]))))
         "London"
       = Ok (error_payload msg).
Proof.
  apply (non_numeric_temperature_is_a_type_error ∅ _ "London"
           (Response 200 "{...}"
              (Ok (VDict [("main", VDict [("temp", VStr "21.5")])])))
           [("main", VDict [("temp", VStr "21.5")])]
           [("temp", VStr "21.5")] (VStr "21.5"));
    reflexivity.
Defined.

(** ** The delegating tools and the command loop *)

Section AgentFacts.
Context {St : Type}.

(** X8: the two delegating tools never raise: whatever the sub-agent
    does, the coordinator gets a [str], the agent's message when it
    answered and a fixed prefix followed by the description of the
    exception when it raised; the sub-agent is called once, and its new
    state is kept in either case. *)
Theorem delegating_tools_return_text (sub_agent : @agent St) (st : St)
    (query : string) :
  ask_weather_agent sub_agent st query
  = (fst (sub_agent st query),
     Ok match snd (sub_agent st query) with
        | Ok message => message
        | Raise e => "Error getting weather information: " +:+ exn_str e
        end)
  /\ ask_distance_agent sub_agent st query
     = (fst (sub_agent st query),
        Ok match snd (sub_agent st query) with
           | Ok message => message
           | Raise e => "Error calculating distance: " +:+ exn_str e
           end).
Proof.
  unfold ask_weather_agent, ask_distance_agent.
  destruct (sub_agent st query) as [st' [message|e]]; split; reflexivity.
Qed.

Lemma process_request_ok (response : result string) :
  exists events, process_request response = Ok events
                 /\ prompts events = 0.
Proof.
  unfold process_request.
  destruct response as [message|e]; eexists; split; reflexivity.
Qed.

Lemma prompts_app (out1 out2 : list event) :
  prompts (out1 ++ out2) = prompts out1 + prompts out2.
Proof. unfold prompts. rewrite filter_app, length_app. reflexivity. Qed.

Lemma prompts_banner (environ : gmap string string) :
  prompts (banner environ) = 0.
Proof.
  unfold banner. destruct (dict_contains environ "OPENWEATHER_API_KEY");
    reflexivity.
Qed.

Lemma main_loop_quits (coordinator_agent : @agent St) (pre : list string) :
  forall (st : St) (q : string) (post : list string),
    Forall (fun line => is_quit line = false) pre ->
    is_quit q = true ->
    run_result (main_loop coordinator_agent st (pre ++ q :: post)) = Ok tt
    /\ run_stdin (main_loop coordinator_agent st (pre ++ q :: post)) = post
    /\ run_state (main_loop coordinator_agent st (pre ++ q :: post))
       = after_queries coordinator_agent st pre
    /\ prompts (run_out (main_loop coordinator_agent st (pre ++ q :: post)))
       = S (length pre)
    /\ last (run_out (main_loop coordinator_agent st (pre ++ q :: post)))
       = Some (Printed "Thank you for using the Weather & Distance Multi-Agent App. Goodbye!").
Proof.
  induction pre as [|line pre IH]; intros st q post Hpre Hq.
  - cbn [app main_loop]. rewrite Hq. repeat split; reflexivity.
  - apply Forall_cons_1 in Hpre as [Hline Hpre].
    cbn [app main_loop]. rewrite Hline.
    unfold after_queries. cbn [fold_left].
    destruct (coordinator_agent st line) as [st' response].
    destruct (process_request_ok response) as (events & -> & Hev).
    destruct (IH st' q post Hpre Hq) as (H1 & H2 & H3 & H4 & H5).
    cbn [run_result run_stdin run_state run_out fst].
    split; [exact H1|]. split; [exact H2|]. split; [exact H3|]. split.
    + change (Prompted prompt :: events ++ ?r)%list
        with ([Prompted prompt] ++ events ++ r)%list.
      rewrite !prompts_app, Hev, H4. reflexivity.
    + change (Prompted prompt :: events ++ ?r)%list
        with (([Prompted prompt] ++ events) ++ r)%list.
      destruct (run_out (main_loop coordinator_agent st' (pre ++ q :: post)))
        as [|ev out] eqn:Hout; [discriminate|].
      rewrite last_app_cons. rewrite <- H5. reflexivity.
Qed.

Lemma main_loop_end_of_input (coordinator_agent : @agent St)
    (stdin : list string) :
  forall st : St,
    Forall (fun line => is_quit line = false) stdin ->
    run_result (main_loop coordinator_agent st stdin)
    = Raise (OtherException "EOF when reading a line")
    /\ run_stdin (main_loop coordinator_agent st stdin) = []
    /\ run_state (main_loop coordinator_agent st stdin)
       = after_queries coordinator_agent st stdin
    /\ prompts (run_out (main_loop coordinator_agent st stdin))
       = S (length stdin).
Proof.
  induction stdin as [|line stdin IH]; intros st Hall.
  - repeat split; reflexivity.
  - apply Forall_cons_1 in Hall as [Hline Hall].
    cbn [main_loop]. rewrite Hline.
    unfold after_queries. cbn [fold_left].
    destruct (coordinator_agent st line) as [st' response].
    destruct (process_request_ok response) as (events & -> & Hev).
    destruct (IH st' Hall) as (H1 & H2 & H3 & H4).
    cbn [run_result run_stdin run_state run_out fst].
    split; [exact H1|]. split; [exact H2|]. split; [exact H3|].
    change (Prompted prompt :: events ++ ?r)%list
      with ([Prompted prompt] ++ events ++ r)%list.
    rewrite !prompts_app, Hev, H4. reflexivity.
Qed.

End AgentFacts.

(** X9: [main] stops at the first line that reads exit or quit in any
    casing: it returns, the lines after it are left unread, the coordinator
    has been called on each earlier line in turn (whether it answered or
    raised), [input] has been called once per line read, and the last thing
    written is the farewell. *)
Theorem main_stops_at_first_quit {St : Type} (environ : gmap string string)
    (coordinator_agent : @agent St) (st : St) (pre : list string)
    (q : string) (post : list string) :
  Forall (fun line => is_quit line = false) pre ->
  is_quit q = true ->
  run_result (main environ coordinator_agent st (pre ++ q :: post)) = Ok tt
  /\ run_stdin (main environ coordinator_agent st (pre ++ q :: post)) = post
  /\ run_state (main environ coordinator_agent st (pre ++ q :: post))
     = after_queries coordinator_agent st pre
  /\ prompts (run_out (main environ coordinator_agent st (pre ++ q :: post)))
     = S (length pre)
  /\ last (run_out (main environ coordinator_agent st (pre ++ q :: post)))
     = Some (Printed "Thank you for using the Weather & Distance Multi-Agent App. Goodbye!").
Proof.
  intros Hpre Hq.
  destruct (main_loop_quits coordinator_agent pre st q post Hpre Hq)
    as (H1 & H2 & H3 & H4 & H5).
  unfold main. cbn [run_result run_stdin run_state run_out].
  split; [exact H1|]. split; [exact H2|]. split; [exact H3|]. split.
  - rewrite prompts_app, prompts_banner, H4. reflexivity.
  - rewrite last_app, H5. reflexivity.
Qed.

Lemma main_stops_at_first_quit_witness :
  Forall (fun line => is_quit line = false) ["hello"; EmptyString; " exit"]
  /\ is_quit "QUIT" = true
  /\ run_result (main ∅ echo_agent 0
                   (["hello"; EmptyString; " exit"] ++ "QUIT" :: ["not read"]))
     = Ok tt
  /\ run_stdin (main ∅ echo_agent 0
                  (["hello"; EmptyString; " exit"] ++ "QUIT" :: ["not read"]))
     = ["not read"]
  /\ run_state (main ∅ echo_agent 0
                  (["hello"; EmptyString; " exit"] ++ "QUIT" :: ["not read"]))
     = after_queries echo_agent 0 ["hello"; EmptyString; " exit"]
  /\ prompts (run_out (main ∅ echo_agent 0
                  (["hello"; EmptyString; " exit"] ++ "QUIT" :: ["not read"])))
     = S (length ["hello"; EmptyString; " exit"])
  /\ last (run_out (main ∅ echo_agent 0
                  (["hello"; EmptyString; " exit"] ++ "QUIT" :: ["not read"])))
     = Some (Printed "Thank you for using the Weather & Distance Multi-Agent App. Goodbye!").
Proof.
  split; [repeat constructor|]. split; [reflexivity|].
  apply (main_stops_at_first_quit ∅ echo_agent 0
           ["hello"; EmptyString; " exit"] "QUIT" ["not read"]);
    [repeat constructor|reflexivity].
Defined.

(** X10: when no line reads exit or quit, [main] answers every line and
    then does not return: the call of [input] at the end of the input is
    outside the [try], and its [EOFError] leaves [main]. *)
Theorem main_without_quit_ends_in_eof {St : Type}
    (environ : gmap string string) (coordinator_agent : @agent St) (st : St)
    (stdin : list string) :
  Forall (fun line => is_quit line = false) stdin ->
  run_result (main environ coordinator_agent st stdin)
  = Raise (OtherException "EOF when reading a line")
  /\ run_stdin (main environ coordinator_agent st stdin) = []
  /\ run_state (main environ coordinator_agent st stdin)
     = after_queries coordinator_agent st stdin
  /\ prompts (run_out (main environ coordinator_agent st stdin))
     = S (length stdin).
Proof.
  intros Hall.
  destruct (main_loop_end_of_input coordinator_agent stdin st Hall)
    as (H1 & H2 & H3 & H4).
  unfold main. cbn [run_result run_stdin run_state run_out].
  split; [exact H1|]. split; [exact H2|]. split; [exact H3|].
  rewrite prompts_app, prompts_banner, H4. reflexivity.
Qed.

Lemma main_without_quit_ends_in_eof_witness :
  Forall (fun line => is_quit line = false) ["hello"; "exit now"]
  /\ run_result (main ∅ echo_agent 0 ["hello"; "exit now"])
     = Raise (OtherException "EOF when reading a line")
  /\ run_stdin (main ∅ echo_agent 0 ["hello"; "exit now"]) = []
  /\ run_state (main ∅ echo_agent 0 ["hello"; "exit now"])
     = after_queries echo_agent 0 ["hello"; "exit now"]
  /\ prompts (run_out (main ∅ echo_agent 0 ["hello"; "exit now"]))
     = S (length ["hello"; "exit now"]).
Proof.
  split; [repeat constructor|].
  apply (main_without_quit_ends_in_eof ∅ echo_agent 0 ["hello"; "exit now"]).
  repeat constructor.
Defined.

(** X11: whether [main] returns, and which lines it leaves unread, is
    decided by the input alone: no answer and no exception of the
    coordinator, and nothing in the environment, changes it. *)
Theorem main_end_depends_on_input_only {St St' : Type}
    (environ environ' : gmap string string)
    (coordinator_agent : @agent St) (coordinator_agent' : @agent St')
    (stdin : list string) (st : St) (st' : St') :
  run_result (main environ coordinator_agent st stdin)
  = run_result (main environ' coordinator_agent' st' stdin)
  /\ run_stdin (main environ coordinator_agent st stdin)
     = run_stdin (main environ' coordinator_agent' st' stdin).
Proof.
  unfold main. cbn [run_result run_stdin].
  revert st st'. induction stdin as [|line stdin IH]; intros st st'.
  - split; reflexivity.
  - cbn [main_loop]. destruct (is_quit line); [split; reflexivity|].
    destruct (coordinator_agent st line) as [s1 r1].
    destruct (coordinator_agent' st' line) as [s2 r2].
    destruct (process_request_ok r1) as (ev1 & -> & _).
    destruct (process_request_ok r2) as (ev2 & -> & _).
    cbn [run_result run_stdin]. apply IH.
Qed.

(** X12: a line ends the session only when it has exactly four characters:
    the comparison is on the lowercased line, not trimmed, so a blank
    before or after, or any further word, makes the line a query; and every
    line whose lowercase is exit or quit does end it. *)
Theorem quit_line_has_four_characters (user_input : string) :
  (is_quit user_input = true -> String.length user_input = 4)
  /\ (lower user_input = "exit" \/ lower user_input = "quit"
      <-> is_quit user_input = true).
Proof.
  assert (Hiff : lower user_input = "exit" \/ lower user_input = "quit"
                 <-> is_quit user_input = true).
  { unfold is_quit. rewrite orb_true_iff, !String.eqb_eq. reflexivity. }
  split; [|exact Hiff].
  intros H. apply Hiff in H. rewrite <- lower_length.
  destruct H as [-> | ->]; reflexivity.
Qed.
